(** * Synthetic project data generator: a shallow embedding

    This development embeds [generate_project_data] of
    [src/generate_project_data.py] and proves properties of it.

    Modelling decisions, all visible in the definitions below:

    - a Python [int] is a [Z]; a Python [float] is a rational number [Q]
      (the rounding error of binary64 arithmetic is outside the model, and
      equality of floats is read as equality of rationals, [==]);
    - the two pseudo-random sources ([random] of Python and [np.random] of
      NumPy) and [np.exp] are libraries outside the repository: they are an
      interface, [Lib], whose implementation every theorem is quantified
      over;
    - the generator is a program in a small monad [gen] whose only effect is
      a call to one of the two random sources; running it against a library
      threads the state of both sources and records every call made, in
      order, together with its answer. *)

From Stdlib Require Import ZArith QArith Qround Lqa Lia List String Ascii Bool.
From Stdlib Require Import DecimalString DecimalN DecimalFacts.
Import ListNotations.

Local Open Scope Z_scope.

(** ** Python built-ins used by the generator *)

Module Py.

(** [a < b] on floats, as a boolean. *)
Definition flt (a b : Q) : bool := negb (Qle_bool b a).

(** [max(a, b)] keeps its first argument unless the second is strictly
    greater; [min(a, b)] keeps it unless the second is strictly smaller. *)
Definition max (a b : Z) : Z := if a <? b then b else a.
Definition min (a b : Z) : Z := if b <? a then b else a.
Definition fmax (a b : Q) : Q := if flt a b then b else a.
Definition fmin (a b : Q) : Q := if flt b a then b else a.

(** [int(x)] of a float: truncation toward zero. *)
Definition int (x : Q) : Z := Z.quot (Qnum x) (Zpos (Qden x)).

(** Rounding to the nearest integer, ties to the even one: what [round]
    does on an exact value. *)
Definition round_half_even (x : Q) : Z :=
  let f := Qfloor x in
  match Qcompare (x - inject_Z f) (1 # 2) with
  | Lt => f
  | Gt => f + 1
  | Eq => if Z.even f then f else f + 1
  end.

(** [round(x, ndigits)]. *)
Definition round (x : Q) (ndigits : nat) : Q :=
  let scale := inject_Z (10 ^ Z.of_nat ndigits) in
  (inject_Z (round_half_even (x * scale)) / scale)%Q.

(** The truth value of an int in a condition: non-zero. *)
Definition truthy (z : Z) : bool := negb (z =? 0).

(** [a / b] on two ints: true division, a float. *)
Definition truediv (a b : Z) : Q := (inject_Z a / inject_Z b)%Q.

(** The decimal digits of a natural number. *)
Definition digits (n : N) : string := NilZero.string_of_uint (N.to_uint n).

(** [k] copies of the character ["0"]. *)
Fixpoint zeros (k : nat) : string :=
  match k with
  | O => EmptyString
  | S k' => String "0" (zeros k')
  end.

(** Left padding with zeros up to a minimal width; a longer string is
    kept whole. *)
Definition zfill (width : nat) (s : string) : string :=
  (zeros (width - String.length s) ++ s)%string.

(** The format specification [04d]: sign-aware zero padding to width 4. *)
Definition format_04d (z : Z) : string :=
  if z <? 0
  then String "-" (zfill 3 (digits (Z.to_N (- z))))
  else zfill 4 (digits (Z.to_N z)).

End Py.

(** ** The data model: a table is a list of dicts *)

(** A cell of the table. *)
Inductive value : Type :=
| VStr (s : string)
| VInt (z : Z)
| VFloat (q : Q).

(** A Python dict literal, in insertion order. *)
Definition record : Type := list (string * value).

(** The rows handed to [pd.DataFrame]. *)
Definition table : Type := list record.

(** [d[key]] *)
Fixpoint get (key : string) (d : record) : option value :=
  match d with
  | [] => None
  | (k, v) :: d' => if String.eqb key k then Some v else get key d'
  end.

(** The keys of a dict, in insertion order. *)
Definition keys (d : record) : list string := map fst d.

(** ** Calls to the random sources *)

Inductive call : Type :=
| NpSeed (seed : Z)                 (* np.random.seed(seed) *)
| PySeed (seed : Z)                 (* random.seed(seed) *)
| PyChoice (len : nat)              (* random.choice(seq), len(seq) = len *)
| PyRandom                          (* random.random() *)
| NpLognormal (mean sigma : Q)      (* np.random.lognormal(mean, sigma) *)
| NpGamma (shape scale : Q)         (* np.random.gamma(shape, scale) *)
| NpBeta (a b : Q)                  (* np.random.beta(a, b) *)
| NpUniform (low high : Q)          (* np.random.uniform(low, high) *)
| NpPoisson (lam : Q)               (* np.random.poisson(lam) *)
| NpNormal (loc scale : Q).         (* np.random.normal(loc, scale) *)

(** What a call answers: a seeding answers nothing, [random.choice] the
    position it picked, [poisson] an int and every other sampler a float. *)
Definition answer (c : call) : Type :=
  match c with
  | NpSeed _ | PySeed _ => unit
  | PyChoice _ => nat
  | NpPoisson _ => Z
  | _ => Q
  end.

(** A call that happened, with what it answered. *)
Inductive event : Type :=
| Ev (c : call) (v : answer c).

Definition event_call (e : event) : call := let 'Ev c _ := e in c.

(** ** Programs over the random sources *)

Inductive gen (A : Type) : Type :=
| Ret (a : A)
| Draw (c : call) (k : answer c -> gen A).

Arguments Ret {A} a.
Arguments Draw {A} c k.

Fixpoint bind {A B : Type} (m : gen A) (f : A -> gen B) : gen B :=
  match m with
  | Ret a => f a
  | Draw c k => Draw c (fun v => bind (k v) f)
  end.

Definition draw (c : call) : gen (answer c) := Draw c Ret.

Declare Scope gen_scope.
Delimit Scope gen_scope with gen.
Notation "x <- m ;; k" := (bind m (fun x => k))
  (at level 61, m at next level, right associativity) : gen_scope.
Notation "m ;;; k" := (bind m (fun _ => k))
  (at level 61, right associativity) : gen_scope.

(** ** The generator, [src/generate_project_data.py] *)

Local Open Scope string_scope.

Definition project_types : list string :=
  ["Software Development"; "Infrastructure"; "Business Process";
   "Product Launch"; "System Integration"].

Definition industries : list string :=
  ["Technology"; "Finance"; "Healthcare"; "Retail"; "Manufacturing"].

(** The column names, in the order of the dict literal of lines 85-103. *)
Definition field_names : list string :=
  ["project_id"; "project_type"; "industry"; "budget_thousands"; "team_size";
   "planned_duration_months"; "actual_duration_months"; "scope_clarity_score";
   "stakeholder_engagement"; "resource_availability"; "technical_complexity";
   "team_experience_level"; "change_requests"; "external_dependencies";
   "budget_variance_percent"; "quality_score"; "success"].

(** [random.choice(seq)]: the element at the position the source picks. *)
Definition choice (seq : list string) : gen string :=
  bind (draw (PyChoice (List.length seq))) (fun i => Ret (nth i seq "")).

(** Lines 11-12, run once when the module is loaded. *)
Definition module_init : gen unit :=
  bind (draw (NpSeed 42)) (fun _ => bind (draw (PySeed 42)) (fun _ => Ret tt)).

Local Open Scope Q_scope.
Local Open Scope gen_scope.

(** Lines 59-67. *)
Definition risk_score (scope_clarity stakeholder_engagement
    resource_availability technical_complexity team_experience : Q)
    (change_requests dependencies : Z) : Q :=
  (10 - scope_clarity) * 0.2 +
  (10 - stakeholder_engagement) * 0.15 +
  (10 - resource_availability) * 0.2 +
  technical_complexity * 0.15 +
  (10 - team_experience) * 0.15 +
  Py.truediv change_requests 10 * 0.1 +
  Py.truediv dependencies 10 * 0.05.

(** Line 86: the f-string [f'PRJ_{i+1:04d}']. *)
Definition project_id (i : Z) : string :=
  ("PRJ_" ++ Py.format_04d (i + 1))%string.

Section Generator.

(** [np.exp], a function of the NumPy library. *)
Variable np_exp : Q -> Q.

(** Line 70. *)
Definition success_probability (risk_score : Q) : Q :=
  1 / (1 + np_exp ((risk_score - 5) / 2)).

(** Lines 74-81: the three fields drawn after [success] is known. *)
Definition outcomes (success planned_duration : Z) : gen (Z * Q * Q) :=
  if Py.truthy success then
    noise <- draw (NpNormal 0 2) ;;
    let actual_duration := (planned_duration + Py.int noise)%Z in
    budget_variance <- draw (NpNormal 0 15) ;;
    let budget_variance := Py.round budget_variance 1 in
    quality_score <- draw (NpBeta 8 2) ;;
    let quality_score := Py.round (quality_score * 100) 1 in
    Ret (actual_duration, budget_variance, quality_score)
  else
    noise <- draw (NpNormal 5 3) ;;
    let actual_duration := (planned_duration + Py.int noise)%Z in
    budget_variance <- draw (NpNormal 25 15) ;;
    let budget_variance := Py.round budget_variance 1 in
    quality_score <- draw (NpBeta 3 5) ;;
    let quality_score := Py.round (quality_score * 100) 1 in
    Ret (actual_duration, budget_variance, quality_score).

(** Lines 31-103: the body of the loop, for the index [i]. *)
Definition project (i : Z) : gen record :=
  project_type <- choice project_types ;;
  industry <- choice industries ;;
  budget <- draw (NpLognormal 5 1) ;;
  let budget := Py.round (budget * 10) 2 in
  let budget := Py.fmax 50 (Py.fmin budget 5000) in
  team_size <- draw (NpLognormal 2 0.8) ;;
  let team_size := Py.int team_size in
  let team_size := Py.max 3 (Py.min team_size 50) in
  planned_duration <- draw (NpGamma 3 2) ;;
  let planned_duration := Py.int planned_duration in
  let planned_duration := Py.max 1 (Py.min planned_duration 24) in
  scope_clarity <- draw (NpBeta 5 2) ;;
  let scope_clarity := Py.round (scope_clarity * 10) 1 in
  stakeholder_engagement <- draw (NpBeta 4 2) ;;
  let stakeholder_engagement := Py.round (stakeholder_engagement * 10) 1 in
  resource_availability <- draw (NpBeta 5 3) ;;
  let resource_availability := Py.round (resource_availability * 10) 1 in
  technical_complexity <- draw (NpUniform 1 10) ;;
  let technical_complexity := Py.round technical_complexity 1 in
  team_experience <- draw (NpBeta 5 2) ;;
  let team_experience := Py.round (team_experience * 10) 1 in
  change_requests <- draw (NpPoisson 3) ;;
  dependencies <- draw (NpPoisson 2) ;;
  let risk_score :=
    risk_score scope_clarity stakeholder_engagement resource_availability
      technical_complexity team_experience change_requests dependencies in
  let success_probability := success_probability risk_score in
  u <- draw PyRandom ;;
  let success := if Py.flt u success_probability then 1%Z else 0%Z in
  o <- outcomes success planned_duration ;;
  let '(actual_duration, budget_variance, quality_score) := o in
  let actual_duration := Py.max 1 actual_duration in
  Ret [ ("project_id", VStr (project_id i));
        ("project_type", VStr project_type);
        ("industry", VStr industry);
        ("budget_thousands", VFloat budget);
        ("team_size", VInt team_size);
        ("planned_duration_months", VInt planned_duration);
        ("actual_duration_months", VInt actual_duration);
        ("scope_clarity_score", VFloat scope_clarity);
        ("stakeholder_engagement", VFloat stakeholder_engagement);
        ("resource_availability", VFloat resource_availability);
        ("technical_complexity", VFloat technical_complexity);
        ("team_experience_level", VFloat team_experience);
        ("change_requests", VInt change_requests);
        ("external_dependencies", VInt dependencies);
        ("budget_variance_percent", VFloat budget_variance);
        ("quality_score", VFloat quality_score);
        ("success", VInt success) ]%string.

(** Lines 30-103: [for i in range(...)], with [todo] rounds left, the next
    index [i] and the rows appended so far. *)
Fixpoint loop (todo : nat) (i : Z) (data : table) : gen table :=
  match todo with
  | O => Ret data
  | S todo' =>
      row <- project i ;;
      loop todo' (i + 1)%Z (data ++ [row])%list
  end.

(** Lines 14-105.  [range(n_projects)] is empty when [n_projects <= 0]. *)
Definition generate_project_data (n_projects : Z) : gen table :=
  loop (Z.to_nat n_projects) 0%Z [].

(** A process that loads the module and then calls the generator once. *)
Definition fresh_run (n_projects : Z) : gen table :=
  module_init ;;; generate_project_data n_projects.


End Generator.

(** ** The libraries behind the calls *)

(** What the repository takes from [random], [np.random] and NumPy. *)
Record Lib : Type := {
  py_state : Type;
  np_state : Type;
  py_seed : Z -> py_state;
  py_choice : nat -> py_state -> nat * py_state;
  py_random : py_state -> Q * py_state;
  np_seed : Z -> np_state;
  np_lognormal : Q -> Q -> np_state -> Q * np_state;
  np_gamma : Q -> Q -> np_state -> Q * np_state;
  np_beta : Q -> Q -> np_state -> Q * np_state;
  np_uniform : Q -> Q -> np_state -> Q * np_state;
  np_poisson : Q -> np_state -> Z * np_state;
  np_normal : Q -> Q -> np_state -> Q * np_state;
  exp : Q -> Q
}.

(** The two module-level generators of a running Python process. *)
Record process (L : Lib) : Type := {
  py_rng : py_state L;
  np_rng : np_state L
}.

Arguments py_rng {L} p.
Arguments np_rng {L} p.

Section Running.

Variable L : Lib.

Definition on_py {A : Type} (r : A * py_state L) (p : process L)
  : A * process L :=
  (fst r, {| py_rng := snd r; np_rng := np_rng p |}).

Definition on_np {A : Type} (r : A * np_state L) (p : process L)
  : A * process L :=
  (fst r, {| py_rng := py_rng p; np_rng := snd r |}).

(** One call: its answer and the process after it.  A seeding forgets
    the state the source had. *)
Definition handle (c : call) (p : process L) : answer c * process L :=
  match c return answer c * process L with
  | NpSeed seed => (tt, {| py_rng := py_rng p; np_rng := np_seed L seed |})
  | PySeed seed => (tt, {| py_rng := py_seed L seed; np_rng := np_rng p |})
  | PyChoice len => on_py (py_choice L len (py_rng p)) p
  | PyRandom => on_py (py_random L (py_rng p)) p
  | NpLognormal mean sigma => on_np (np_lognormal L mean sigma (np_rng p)) p
  | NpGamma shape scale => on_np (np_gamma L shape scale (np_rng p)) p
  | NpBeta a b => on_np (np_beta L a b (np_rng p)) p
  | NpUniform low high => on_np (np_uniform L low high (np_rng p)) p
  | NpPoisson lam => on_np (np_poisson L lam (np_rng p)) p
  | NpNormal loc scale => on_np (np_normal L loc scale (np_rng p)) p
  end.

(** What running a program gives: its value, the process it leaves and
    the calls it made, oldest first. *)
Record ran (A : Type) : Type := {
  result : A;
  final : process L;
  events : list event
}.

Arguments result {A} r.
Arguments final {A} r.
Arguments events {A} r.

Fixpoint run {A : Type} (m : gen A) (p : process L) : ran A :=
  match m with
  | Ret a => {| result := a; final := p; events := [] |}
  | Draw c k =>
      let r := handle c p in
      let rest := run (k (fst r)) (snd r) in
      {| result := result rest;
         final := final rest;
         events := Ev c (fst r) :: events rest |}
  end.

End Running.

Arguments result {L A} r.
Arguments final {L A} r.
Arguments events {L A} r.
Arguments run L {A} m p.

(** One call of the generator in a process [p]. *)
Definition call_generate (L : Lib) (n_projects : Z) (p : process L)
  : ran L table :=
  run L (generate_project_data (exp L) n_projects) p.

(** One round of the loop in a process [p]. *)
Definition call_project (L : Lib) (i : Z) (p : process L) : ran L record :=
  run L (project (exp L) i) p.

(** ** What is assumed of the libraries, where a property needs it *)

(** A Beta sample lies in the unit interval. *)
Definition beta_in_unit (L : Lib) : Prop :=
  forall a b s, 0 <= fst (np_beta L a b s) <= 1.

(** The exponential is positive and strictly increasing. *)
Definition exp_positive (e : Q -> Q) : Prop := forall x, 0 < e x.
Definition exp_increasing (e : Q -> Q) : Prop := forall x y, x < y -> e x < e y.

(** ** Reasoning about every run at once *)

(** A constraint on what calls may answer. *)
Definition answers : Type := forall c : call, answer c -> Prop.

Definition any_answer : answers := fun _ _ => True.

Definition beta_answers : answers :=
  fun c =>
    match c return answer c -> Prop with
    | NpBeta _ _ => fun v => 0 <= v <= 1
    | _ => fun _ => True
    end.

(** [always ok m P]: whatever the calls answer within [ok], the program [m]
    ends with a value and a list of events that satisfy [P]. *)
Fixpoint always {A : Type} (ok : answers) (m : gen A)
    (P : A -> list event -> Prop) : Prop :=
  match m with
  | Ret a => P a []
  | Draw c k => forall v, ok c v -> always ok (k v) (fun a evs => P a (Ev c v :: evs))
  end.

(** A library whose answers all lie within [ok]. *)
Definition answers_within (L : Lib) (ok : answers) : Prop :=
  forall c p, ok c (fst (handle L c p)).

(** The rows of a table with the events of the round that made each:
    [rounds P i rows evs] cuts [evs] into one piece per row, and [P] holds of
    each index, row and piece, the indices counting up from [i]. *)
Inductive rounds (P : Z -> record -> list event -> Prop)
  : Z -> table -> list event -> Prop :=
| rounds_nil (i : Z) : rounds P i [] []
| rounds_cons (i : Z) (row : record) (evs : list event)
    (rows : table) (evs' : list event) :
    P i row evs -> rounds P (i + 1)%Z rows evs' ->
    rounds P i (row :: rows) (evs ++ evs').

(** ** Reading a row and its events *)


(** The answers of the calls to [random.random()], oldest first. *)
Fixpoint uniform_draws (evs : list event) : list Q :=
  match evs with
  | [] => []
  | Ev PyRandom u :: evs' => u :: uniform_draws evs'
  | _ :: evs' => uniform_draws evs'
  end.

(** The first call to [np.random.normal]: its parameters and its answer. *)
Fixpoint first_normal (evs : list event) : option (Q * Q * Q) :=
  match evs with
  | [] => None
  | Ev (NpNormal loc scale) x :: _ => Some (loc, scale, x)
  | _ :: evs' => first_normal evs'
  end.

(** A call without its arguments. *)
Inductive kind : Type :=
| KSeed | KChoice | KRandom | KLognormal | KGamma | KBeta | KUniform
| KPoisson | KNormal.

Definition call_kind (c : call) : kind :=
  match c with
  | NpSeed _ | PySeed _ => KSeed
  | PyChoice _ => KChoice
  | PyRandom => KRandom
  | NpLognormal _ _ => KLognormal
  | NpGamma _ _ => KGamma
  | NpBeta _ _ => KBeta
  | NpUniform _ _ => KUniform
  | NpPoisson _ => KPoisson
  | NpNormal _ _ => KNormal
  end.

(** The calls of one round up to and including the Bernoulli draw. *)
Definition calls_before_outcome : list call :=
  [PyChoice 5; PyChoice 5; NpLognormal 5 1; NpLognormal 2 0.8; NpGamma 3 2;
   NpBeta 5 2; NpBeta 4 2; NpBeta 5 3; NpUniform 1 10; NpBeta 5 2;
   NpPoisson 3; NpPoisson 2; PyRandom].

(** The calls of the two branches of lines 74-81. *)
Definition calls_on_success : list call :=
  [NpNormal 0 2; NpNormal 0 15; NpBeta 8 2].

Definition calls_on_failure : list call :=
  [NpNormal 5 3; NpNormal 25 15; NpBeta 3 5].

(** The risk score of a row, recomputed from its seven risk fields. *)
Definition row_risk (row : record) : option Q :=
  match get "scope_clarity_score" row, get "stakeholder_engagement" row,
        get "resource_availability" row, get "technical_complexity" row,
        get "team_experience_level" row, get "change_requests" row,
        get "external_dependencies" row with
  | Some (VFloat sc), Some (VFloat se), Some (VFloat ra), Some (VFloat tc),
    Some (VFloat te), Some (VInt cr), Some (VInt dep) =>
      Some (risk_score sc se ra tc te cr dep)
  | _, _, _, _, _, _, _ => None
  end.

(** The number after the prefix of a project id, leading zeros dropped. *)
Definition id_number (id : string) : option N :=
  match id with
  | String "P" (String "R" (String "J" (String "_" s))) =>
      option_map N.of_uint (NilEmpty.uint_of_string s)
  | _ => None
  end.

(** The ids of a table, top to bottom. *)
Definition project_ids (t : table) : list (option value) :=
  map (get "project_id") t.

(** The naturals [first], [first + 1], ... ([len] of them). *)
Fixpoint count_from (first : N) (len : nat) : list N :=
  match len with
  | O => []
  | S len' => first :: count_from (N.succ first) len'
  end.

(** ** The properties, as statements about a row and its round *)

(** [P] holds of every round of one call of the generator: of its index,
    the row it appended and the calls it made. *)
Definition every_round (L : Lib) (n_projects : Z) (p : process L)
    (P : Z -> record -> list event -> Prop) : Prop :=
  rounds P 0 (result (call_generate L n_projects p))
             (events (call_generate L n_projects p)).

(** The process right after the module was loaded. *)
Definition seeded (L : Lib) : process L :=
  {| py_rng := py_seed L 42; np_rng := np_seed L 42 |}.

(** The bounded fields of a row lie in their ranges. *)
Definition in_ranges (row : record) : Prop :=
  exists (budget : Q) (team planned actual : Z) (quality : Q) (success : Z),
    get "budget_thousands" row = Some (VFloat budget)
    /\ 50 <= budget <= 5000
    /\ get "team_size" row = Some (VInt team)
    /\ (3 <= team <= 50)%Z
    /\ get "planned_duration_months" row = Some (VInt planned)
    /\ (1 <= planned <= 24)%Z
    /\ get "actual_duration_months" row = Some (VInt actual)
    /\ (1 <= actual)%Z
    /\ get "success" row = Some (VInt success)
    /\ (success = 0 \/ success = 1)%Z
    /\ get "quality_score" row = Some (VFloat quality)
    /\ 0 <= quality <= 100.

(** The weighted sum of the risk factors, weights first, as the
    specification writes it. *)
Definition risk_formula (scope_clarity stakeholder_engagement
    resource_availability technical_complexity team_experience : Q)
    (change_requests external_dependencies : Z) : Q :=
  0.2 * (10 - scope_clarity) +
  0.15 * (10 - stakeholder_engagement) +
  0.2 * (10 - resource_availability) +
  0.15 * technical_complexity +
  0.15 * (10 - team_experience) +
  0.10 * (inject_Z change_requests / 10) +
  0.05 * (inject_Z external_dependencies / 10).

Definition weights : list Q := [0.2; 0.15; 0.2; 0.15; 0.15; 0.10; 0.05].

Definition total (l : list Q) : Q := fold_right Qplus 0 l.

(** The weighted sum of a row, from its seven risk fields. *)
Definition row_formula (row : record) : option Q :=
  match get "scope_clarity_score" row, get "stakeholder_engagement" row,
        get "resource_availability" row, get "technical_complexity" row,
        get "team_experience_level" row, get "change_requests" row,
        get "external_dependencies" row with
  | Some (VFloat sc), Some (VFloat se), Some (VFloat ra), Some (VFloat tc),
    Some (VFloat te), Some (VInt cr), Some (VInt dep) =>
      Some (risk_formula sc se ra tc te cr dep)
  | _, _, _, _, _, _, _ => None
  end.

(** The risk score of a row is the weighted sum of its fields, and it is
    the score that decided the success of the row. *)
Definition scored (e : Q -> Q) (row : record) (evs : list event) : Prop :=
  exists risk formula u,
    row_risk row = Some risk
    /\ row_formula row = Some formula
    /\ risk == formula
    /\ uniform_draws evs = [u]
    /\ get "success" row
       = Some (VInt (if Py.flt u (success_probability e risk)
                     then 1%Z else 0%Z)).

(** The success of a row was decided by the one uniform draw of its round,
    compared with the success probability of the risk score of the row. *)
Definition bernoulli (e : Q -> Q) (row : record) (evs : list event) : Prop :=
  exists risk u,
    row_risk row = Some risk
    /\ uniform_draws evs = [u]
    /\ get "success" row
       = Some (VInt (if Py.flt u (success_probability e risk)
                     then 1%Z else 0%Z)).

(** The actual duration of a row is its planned duration plus the first
    normal draw of its round, made an int by [to_int], and at least 1; the
    draw is [Normal(0,2)] after a success and [Normal(5,3)] after a
    failure. *)
Definition duration_law (to_int : Q -> Z) (row : record) (evs : list event)
  : Prop :=
  exists (planned success : Z) (loc scale noise : Q) (actual : Z),
    get "planned_duration_months" row = Some (VInt planned)
    /\ get "success" row = Some (VInt success)
    /\ first_normal evs = Some (loc, scale, noise)
    /\ ((success = 1%Z /\ loc = 0 /\ scale = 2)
        \/ (success = 0%Z /\ loc = 5 /\ scale = 3))
    /\ get "actual_duration_months" row = Some (VInt actual)
    /\ actual = Py.max 1 (planned + to_int noise).

(** The id of the row at the 1-based position [k], in the words of the
    specification: the prefix, then [k] padded with zeros to four digits. *)
Definition padded_id (k : N) : string :=
  ("PRJ_" ++ Py.zfill 4 (Py.digits k))%string.

Definition id_value (k : N) : option value := Some (VStr (padded_id k)).

(** The ids of a table count up, as numbers. *)
Definition ids_increase (ids : list (option value)) : Prop :=
  forall (i j : nat) (a b : string),
    (i < j)%nat ->
    nth_error ids i = Some (Some (VStr a)) ->
    nth_error ids j = Some (Some (VStr b)) ->
    exists x y, id_number a = Some x /\ id_number b = Some y /\ (x < y)%N.

(** A call that returns no table. *)
Definition rejected (L : Lib) (n_projects : Z) (p : process L) : Prop :=
  forall t : table, result (call_generate L n_projects p) <> t.

(** Both branches of lines 74-81 made their calls. *)
Definition draws_both (evs : list event) : Prop :=
  forall c, In c (calls_on_success ++ calls_on_failure)%list ->
            In c (map event_call evs).

(** The calls of a round: those before the outcome, then those of the
    branch the outcome selects. *)
Definition draws_selected (row : record) (evs : list event) : Prop :=
  exists success,
    get "success" row = Some (VInt success)
    /\ map event_call evs
       = (calls_before_outcome
          ++ (if Py.truthy success then calls_on_success
              else calls_on_failure))%list.

(** The kinds of the sixteen calls of a round. *)
Definition round_kinds : list kind :=
  [KChoice; KChoice; KLognormal; KLognormal; KGamma; KBeta; KBeta; KBeta;
   KUniform; KBeta; KPoisson; KPoisson; KRandom; KNormal; KNormal; KBeta].




(** ** A library to run the generator on

    The sources read their answers off a tape of numbers: a call takes the
    number at the head and turns it into an answer of its kind.  Seeding
    puts the tape of that seed in place. *)

Module Tape.

Definition pop {A : Type} (f : Q -> A) (t : list Q) : A * list Q :=
  match t with
  | [] => (f 0, [])
  | q :: t' => (f q, t')
  end.

Definition same (q : Q) : Q := q.

(** Into the unit interval. *)
Definition clamp01 (q : Q) : Q := Py.fmax 0 (Py.fmin q 1).

(** Into the positions of a sequence of length [len]. *)
Definition position (len : nat) (q : Q) : nat :=
  (Z.to_nat (Qfloor q) mod len)%nat.

(** A positive, strictly increasing function in the place of [np.exp]. *)
Definition grow (x : Q) : Q := if Py.flt x 0 then 1 / (1 - x) else 1 + x.

Definition lib (py_tape np_tape : Z -> list Q) : Lib :=
  {| py_state := list Q;
     np_state := list Q;
     py_seed := py_tape;
     py_choice := fun len => pop (position len);
     py_random := pop clamp01;
     np_seed := np_tape;
     np_lognormal := fun _ _ => pop same;
     np_gamma := fun _ _ => pop same;
     np_beta := fun _ _ => pop clamp01;
     np_uniform := fun _ _ => pop same;
     np_poisson := fun _ => pop Qfloor;
     np_normal := fun _ _ => pop same;
     exp := grow |}.

(** The tapes used in the examples, the same for every seed; they last for
    two rounds.  [py_tape] holds, per round, the two positions picked by
    [random.choice] and the uniform draw.  [np_tape] holds, per round, the
    thirteen NumPy samples in the order of the calls.  In the first round
    the risk score is 3.17 and the uniform draw 0.1: a success, with the
    duration noise 1.7.  In the second round the risk score is 7.36 and the
    uniform draw 0.9: a failure, with the duration noise 6.5. *)
Definition py_tape (_ : Z) : list Q := [0; 1; 0.1; 3; 4; 0.9].
Definition np_tape (_ : Z) : list Q :=
  [12.345; 7.9; 5.5; 0.7; 0.6; 0.5; 4.2; 0.8; 3; 2; 1.7; 3.14; 0.85;
   30000; 0.2; 100; 0.1; 0.2; 0.3; 9.9; 0.1; 9; 7; 6.5; 40.26; 0.4].

Definition example : Lib := lib py_tape np_tape.

(** A process in which the module has been loaded. *)
Definition seeded : process example :=
  Build_process example (py_tape 42) (np_tape 42).

End Tape.

(** ** Further assumptions on the libraries *)

(** [random.choice] picks a position of the sequence. *)
Definition choice_in_range (L : Lib) : Prop :=
  forall len s, (0 < len)%nat -> (fst (py_choice L len s) < len)%nat.

(** A uniform sample lies between its bounds. *)
Definition uniform_in_bounds (L : Lib) : Prop :=
  forall low high s,
    low <= high -> low <= fst (np_uniform L low high s) <= high.

(** A Poisson sample is not negative. *)
Definition poisson_nonnegative (L : Lib) : Prop :=
  forall lam s, (0 <= fst (np_poisson L lam s))%Z.

(** The exponential of zero is one. *)
Definition exp_one_at_zero (e : Q -> Q) : Prop := forall x, x == 0 -> e x == 1.

Definition choice_answers : answers :=
  fun c =>
    match c return answer c -> Prop with
    | PyChoice len => fun v => (0 < len)%nat -> (v < len)%nat
    | _ => fun _ => True
    end.

Definition sampler_answers : answers :=
  fun c =>
    match c return answer c -> Prop with
    | NpBeta _ _ => fun v => 0 <= v <= 1
    | NpUniform low high => fun v => low <= high -> low <= v <= high
    | NpPoisson _ => fun v => (0 <= v)%Z
    | _ => fun _ => True
    end.

(** ** Further readings of a row, a table and its events *)

(** The seven risk factors of a row lie in their ranges: the four scores
    made from a Beta sample between 0 and 10, the technical complexity
    between 1 and 10, the two counts not negative; and the risk score made
    from them is at least 0.15 and at most 8.5 plus a hundredth of the
    change requests plus a two-hundredth of the dependencies. *)
Definition factors_in_ranges (row : record) : Prop :=
  exists (sc se ra tc te : Q) (cr dep : Z) (risk : Q),
    get "scope_clarity_score" row = Some (VFloat sc)
    /\ get "stakeholder_engagement" row = Some (VFloat se)
    /\ get "resource_availability" row = Some (VFloat ra)
    /\ get "technical_complexity" row = Some (VFloat tc)
    /\ get "team_experience_level" row = Some (VFloat te)
    /\ get "change_requests" row = Some (VInt cr)
    /\ get "external_dependencies" row = Some (VInt dep)
    /\ 0 <= sc <= 10 /\ 0 <= se <= 10 /\ 0 <= ra <= 10
    /\ 1 <= tc <= 10 /\ 0 <= te <= 10
    /\ (0 <= cr)%Z /\ (0 <= dep)%Z
    /\ row_risk row = Some risk
    /\ 0.15 <= risk
    /\ risk <= 8.5 + inject_Z cr / 100 + inject_Z dep / 200.

(** The two categorical cells of a row. *)
Definition categories (row : record) : option value * option value :=
  (get "project_type" row, get "industry" row).

(** The categorical cells of a row are labels of the two lists. *)
Definition labelled (row : record) : Prop :=
  exists project_type industry,
    get "project_type" row = Some (VStr project_type)
    /\ In project_type project_types
    /\ get "industry" row = Some (VStr industry)
    /\ In industry industries.

(** A number with at most [k] decimals. *)
Definition has_decimals (k : nat) (q : Q) : Prop :=
  exists z : Z, q == inject_Z z / inject_Z (10 ^ Z.of_nat k).

(** The float cells of a row have the decimals [round] leaves them: two for
    the budget, one for the others. *)
Definition rounded_cells (row : record) : Prop :=
  exists budget sc se ra tc te variance quality,
    get "budget_thousands" row = Some (VFloat budget)
    /\ get "scope_clarity_score" row = Some (VFloat sc)
    /\ get "stakeholder_engagement" row = Some (VFloat se)
    /\ get "resource_availability" row = Some (VFloat ra)
    /\ get "technical_complexity" row = Some (VFloat tc)
    /\ get "team_experience_level" row = Some (VFloat te)
    /\ get "budget_variance_percent" row = Some (VFloat variance)
    /\ get "quality_score" row = Some (VFloat quality)
    /\ has_decimals 2 budget
    /\ has_decimals 1 sc /\ has_decimals 1 se /\ has_decimals 1 ra
    /\ has_decimals 1 tc /\ has_decimals 1 te
    /\ has_decimals 1 variance /\ has_decimals 1 quality.

(** A call to the [random] module of Python, as opposed to NumPy. *)
Definition is_py (c : call) : bool :=
  match c with
  | PySeed _ | PyChoice _ | PyRandom => true
  | _ => false
  end.

Definition py_events (evs : list event) : list event :=
  filter (fun ev => is_py (event_call ev)) evs.

Definition np_events (evs : list event) : list event :=
  filter (fun ev => negb (is_py (event_call ev))) evs.

(** A row without its id. *)
Definition data_fields (row : record) : record :=
  filter (fun cell => negb (String.eqb (fst cell) "project_id")) row.

(** What one round takes from [random], lines 32, 33 and 71: the two labels
    and the state after the uniform draw. *)
Definition py_round (L : Lib) (s : py_state L)
  : (option value * option value) * py_state L :=
  let a := py_choice L 5 s in
  let b := py_choice L 5 (snd a) in
  let u := py_random L (snd b) in
  ((Some (VStr (nth (fst a) project_types "")),
    Some (VStr (nth (fst b) industries ""))),
   snd u).

Fixpoint py_rounds (L : Lib) (todo : nat) (s : py_state L)
  : list (option value * option value) * py_state L :=
  match todo with
  | O => ([], s)
  | S todo' =>
      let r := py_round L s in
      let rest := py_rounds L todo' (snd r) in
      (fst r :: fst rest, snd rest)
  end.

(** ** The script, lines 107-116 *)

(** What an expression of the script gives: a value, or the exception it
    raises. *)
Inductive exception : Type :=
| KeyError (key : string)
| TypeError.

Inductive computed (A : Type) : Type :=
| Raised (e : exception)
| Value (a : A).

Arguments Raised {A} e.
Arguments Value {A} a.



(** The numbers of a column, the missing cells skipped; nothing when a cell
    is a string. *)
Fixpoint numbers (cells : list (option value)) : option (list Q) :=
  match cells with
  | [] => Some []
  | None :: cells' => numbers cells'
  | Some (VInt z) :: cells' => option_map (cons (inject_Z z)) (numbers cells')
  | Some (VFloat q) :: cells' => option_map (cons q) (numbers cells')
  | Some (VStr _) :: _ => None
  end.

(** [.mean()] of a column: the sum of its numbers over how many they are,
    missing cells skipped; not a number, [None], when there is no number;
    [TypeError] when a cell is a string. *)
Definition mean (cells : list (option value)) : computed (option Q) :=
  match numbers cells with
  | None => Raised TypeError
  | Some [] => Value None
  | Some qs => Value (Some (total qs / inject_Z (Z.of_nat (List.length qs))))
  end.




(** ** A second library on the tape

    As [Tape.example], with the uniform sample brought between its bounds
    and the Poisson sample made non-negative. *)

Module Tamed.

Definition clamp (low high q : Q) : Q := Py.fmax low (Py.fmin q high).

Definition count (q : Q) : Z := Z.abs (Qfloor q).

Definition example : Lib :=
  {| py_state := list Q;
     np_state := list Q;
     py_seed := Tape.py_tape;
     py_choice := fun len => Tape.pop (Tape.position len);
     py_random := Tape.pop Tape.clamp01;
     np_seed := Tape.np_tape;
     np_lognormal := fun _ _ => Tape.pop Tape.same;
     np_gamma := fun _ _ => Tape.pop Tape.same;
     np_beta := fun _ _ => Tape.pop Tape.clamp01;
     np_uniform := fun low high => Tape.pop (clamp low high);
     np_poisson := fun _ => Tape.pop count;
     np_normal := fun _ _ => Tape.pop Tape.same;
     exp := Tape.grow |}.

Definition seeded : process example :=
  Build_process example (Tape.py_tape 42) (Tape.np_tape 42).

End Tamed.

(** ** The [random] module of CPython

    [random.seed], [random.random] and [random.choice] as CPython 3 has them
    for an int seed: the Mersenne Twister MT19937 of [_randommodule.c]
    ([init_genrand], [init_by_array], [genrand_uint32]) and the methods
    [seed], [choice] and [_randbelow_with_getrandbits] of [random.py].  A
    32-bit word is a [Z] kept below [2^32]. *)

Module Mersenne.

Local Open Scope Z_scope.

Definition size : nat := 624.
Definition shift : nat := 397.
Definition MATRIX_A : Z := 0x9908b0df.
Definition UPPER_MASK : Z := 0x80000000.
Definition LOWER_MASK : Z := 0x7fffffff.

(** The wrap-around of unsigned 32-bit arithmetic. *)
Definition uint32 (z : Z) : Z := z mod 2 ^ 32.

(** The array [mt] and the position of the next word to hand out. *)
Record state : Type := { words : list Z; index : nat }.

(** [mt[i]] and [mt[i] = v]. *)
Definition word (mt : list Z) (i : nat) : Z := nth i mt 0%Z.

Fixpoint put (i : nat) (v : Z) (mt : list Z) : list Z :=
  match mt, i with
  | [], _ => []
  | _ :: rest, O => v :: rest
  | w :: rest, S i' => w :: put i' v rest
  end.

(** [init_genrand]: [mt[0] = s], then
    [mt[mti] = 1812433253 * (mt[mti-1] ^ (mt[mti-1] >> 30)) + mti]. *)
Fixpoint init_words (count : nat) (mti : nat) (previous : Z) : list Z :=
  match count with
  | O => []
  | S count' =>
      let w := uint32 (1812433253 * Z.lxor previous (Z.shiftr previous 30)
                       + Z.of_nat mti) in
      w :: init_words count' (S mti) w
  end.

Definition init_genrand (s : Z) : list Z :=
  uint32 s :: init_words (size - 1) 1 (uint32 s).

(** [if (i >= N) { mt[0] = mt[N-1]; i = 1; }] *)
Definition wrap (mt : list Z) (i : nat) : list Z * nat :=
  if (size <=? i)%nat then (put 0 (word mt (size - 1)) mt, 1%nat)
  else (mt, i).

(** The first loop of [init_by_array], [k] rounds of
    [mt[i] = (mt[i] ^ ((mt[i-1] ^ (mt[i-1] >> 30)) * 1664525))
             + init_key[j] + j]. *)
Fixpoint mix_key (k : nat) (key : list Z) (mt : list Z) (i j : nat)
  : list Z * nat :=
  match k with
  | O => (mt, i)
  | S k' =>
      let previous := word mt (i - 1) in
      let w := uint32 (Z.lxor (word mt i)
                         (uint32 (Z.lxor previous (Z.shiftr previous 30)
                                  * 1664525))
                       + word key j + Z.of_nat j) in
      let (mt', i') := wrap (put i w mt) (S i) in
      let j' := if (List.length key <=? S j)%nat then O else S j in
      mix_key k' key mt' i' j'
  end.

(** The second loop of [init_by_array], [k] rounds of
    [mt[i] = (mt[i] ^ ((mt[i-1] ^ (mt[i-1] >> 30)) * 1566083941)) - i]. *)
Fixpoint mix_index (k : nat) (mt : list Z) (i : nat) : list Z :=
  match k with
  | O => mt
  | S k' =>
      let previous := word mt (i - 1) in
      let w := uint32 (Z.lxor (word mt i)
                         (uint32 (Z.lxor previous (Z.shiftr previous 30)
                                  * 1566083941))
                       - Z.of_nat i) in
      let (mt', i') := wrap (put i w mt) (S i) in
      mix_index k' mt' i'
  end.

Definition init_by_array (key : list Z) : state :=
  let mt := init_genrand 19650218 in
  let (mt1, i) := mix_key (Nat.max size (List.length key)) key mt 1 0 in
  let mt2 := mix_index (size - 1) mt1 i in
  {| words := put 0 0x80000000%Z mt2; index := size |}.

(** The 32-bit words of a natural number, the low word first; one word at
    least. *)
Fixpoint key_words (fuel : nat) (n : Z) : list Z :=
  match fuel with
  | O => [uint32 n]
  | S fuel' =>
      if n <? 2 ^ 32 then [n] else uint32 n :: key_words fuel' (n / 2 ^ 32)
  end.

(** [random.seed(a)] for an int [a]: [init_by_array] on the words of
    [abs(a)]. *)
Definition seed (a : Z) : state :=
  init_by_array (key_words (Z.to_nat (Z.log2 (Z.abs a))) (Z.abs a)).

(** One word of the next array:
    [y = (current & UPPER_MASK) | (next & LOWER_MASK)] and
    [source ^ (y >> 1) ^ mag01[y & 1]]. *)
Definition twist_word (current next source : Z) : Z :=
  let y := Z.lor (Z.land current UPPER_MASK) (Z.land next LOWER_MASK) in
  Z.lxor (Z.lxor source (Z.shiftr y 1)) (if Z.odd y then MATRIX_A else 0).

Fixpoint twist_run (current next source : list Z) : list Z :=
  match current, next, source with
  | c :: current', n :: next', s :: source' =>
      twist_word c n s :: twist_run current' next' source'
  | _, _, _ => []
  end.

(** The three loops of [genrand_uint32] that renew the array in place,
    [mt[kk] = mt[(kk + M) mod N] ^ ...] for [kk] from 0 to [N - 1].  The
    source word [mt[(kk + M) mod N]] is an old word while [kk < N - M] and
    the new word [kk - (N - M)] after that, so the new array is made in
    runs: [a], the words 0 to 226, from old words only; [b], the words 227
    to 453, with [a] as source; [c], the words 454 to 622, with [b] as
    source; and [d], the word 623, whose next word is the new word 0 and
    whose source the new word 396. *)
Definition twist (mt : list Z) : list Z :=
  let a := twist_run mt (tl mt) (skipn shift mt) in
  let b := twist_run (skipn (size - shift) mt)
                     (skipn (S (size - shift)) mt) a in
  let c := twist_run (skipn (2 * (size - shift)) mt)
                     (skipn (S (2 * (size - shift))) mt) b in
  let d := twist_word (word mt (size - 1)) (word a 0)
                      (word b (shift - 1 - (size - shift))) in
  (a ++ b ++ c ++ [d])%list.

Definition temper (y : Z) : Z :=
  let y := Z.lxor y (Z.shiftr y 11) in
  let y := Z.lxor y (Z.land (uint32 (Z.shiftl y 7)) 0x9d2c5680) in
  let y := Z.lxor y (Z.land (uint32 (Z.shiftl y 15)) 0xefc60000) in
  Z.lxor y (Z.shiftr y 18).

Definition genrand_uint32 (s : state) : Z * state :=
  let (mt, i) :=
    if (size <=? index s)%nat then (twist (words s), O)
    else (words s, index s) in
  (temper (word mt i), {| words := mt; index := S i |}).

(** [random.random()]: [(a*67108864.0+b)*(1.0/9007199254740992.0)] with
    [a] of 27 bits and [b] of 26 bits, which is exact in binary64. *)
Definition random (s : state) : Q * state :=
  let (a, s1) := genrand_uint32 s in
  let (b, s2) := genrand_uint32 s1 in
  ((inject_Z (Z.shiftr a 5 * 67108864 + Z.shiftr b 6)
    / inject_Z 9007199254740992)%Q, s2).

(** [getrandbits(k)] for [k <= 32]. *)
Definition getrandbits (k : nat) (s : state) : Z * state :=
  let (w, s') := genrand_uint32 s in (Z.shiftr w (32 - Z.of_nat k), s').

Definition bit_length (n : nat) : nat :=
  match n with
  | O => O
  | _ => S (Z.to_nat (Z.log2 (Z.of_nat n)))
  end.

(** [_randbelow_with_getrandbits(n)], for [0 < n < 2^32]: draw
    [n.bit_length()] bits until they are below [n].  The loop of the source
    has no bound; here it gives up, with [None], after [tries] draws. *)
Fixpoint randbelow (tries : nat) (n : nat) (s : state)
  : option (nat * state) :=
  match tries with
  | O => None
  | S tries' =>
      let (r, s') := getrandbits (bit_length n) s in
      if Z.of_nat n <=? r then randbelow tries' n s'
      else Some (Z.to_nat r, s')
  end.

Definition tries : nat := 64.

(** The position [random.choice] picks in a sequence of [len] elements;
    position 0 and no draw where the loop above gave up. *)
Definition choice (len : nat) (s : state) : nat * state :=
  match randbelow tries len s with
  | Some r => r
  | None => (O, s)
  end.

End Mersenne.


(** What one round takes from the [random] module of CPython: the two
    positions picked and the state after the uniform draw; nothing where a
    choice gave up. *)
Definition cpython_round (s : Mersenne.state)
  : option ((nat * nat) * Mersenne.state) :=
  match Mersenne.randbelow Mersenne.tries 5 s with
  | None => None
  | Some (a, s1) =>
      match Mersenne.randbelow Mersenne.tries 5 s1 with
      | None => None
      | Some (b, s2) => Some ((a, b), snd (Mersenne.random s2))
      end
  end.

Fixpoint cpython_rounds (todo : nat) (s : Mersenne.state)
  : option (list (nat * nat) * Mersenne.state) :=
  match todo with
  | O => Some ([], s)
  | S todo' =>
      match cpython_round s with
      | None => None
      | Some (positions, s') =>
          match cpython_rounds todo' s' with
          | None => None
          | Some (rest, s'') => Some (positions :: rest, s'')
          end
      end
  end.






(** * Lemmas *)

Local Open Scope list_scope.

(** ** The Python built-ins *)

Lemma flt_true (a b : Q) : Py.flt a b = true <-> a < b.
Proof.
  unfold Py.flt. rewrite negb_true_iff. split; intro H.
  - apply Qnot_le_lt. intro Hle. apply Qle_bool_iff in Hle. congruence.
  - destruct (Qle_bool b a) eqn:E; [|reflexivity].
    apply Qle_bool_iff in E. exfalso. apply (Qlt_not_le _ _ H E).
Qed.

Lemma flt_false (a b : Q) : Py.flt a b = false <-> b <= a.
Proof.
  unfold Py.flt. rewrite negb_false_iff. apply Qle_bool_iff.
Qed.

Lemma max_min_between (lo hi x : Z) :
  (lo <= hi)%Z -> (lo <= Py.max lo (Py.min x hi) <= hi)%Z.
Proof.
  intro H. unfold Py.max, Py.min.
  destruct (hi <? x)%Z eqn:E1; destruct (lo <? _)%Z eqn:E2; lia.
Qed.

Lemma max_at_least (lo x : Z) : (lo <= Py.max lo x)%Z.
Proof. unfold Py.max. destruct (lo <? x)%Z eqn:E; lia. Qed.

Lemma fmax_fmin_between (lo hi x : Q) :
  lo <= hi -> lo <= Py.fmax lo (Py.fmin x hi) <= hi.
Proof.
  intro H. unfold Py.fmax, Py.fmin.
  destruct (Py.flt hi x) eqn:E1.
  - destruct (Py.flt lo hi) eqn:E2; split; auto; apply Qle_refl.
  - apply flt_false in E1.
    destruct (Py.flt lo x) eqn:E2.
    + apply flt_true in E2. split; [apply Qlt_le_weak|]; assumption.
    + split; [apply Qle_refl | assumption].
Qed.

(** Rounding to an integer stays between two integers that bound the
    value. *)
Lemma round_half_even_between (lo hi : Z) (x : Q) :
  inject_Z lo <= x <= inject_Z hi ->
  (lo <= Py.round_half_even x <= hi)%Z.
Proof.
  intros [Hlo Hhi]. unfold Py.round_half_even.
  pose proof (Qfloor_le x) as Hf.
  pose proof (Qlt_floor x) as Hf'.
  assert (Hl : (lo <= Qfloor x)%Z).
  { rewrite <- (Qfloor_Z lo). apply Qfloor_resp_le. exact Hlo. }
  assert (Hh : (Qfloor x <= hi)%Z).
  { rewrite <- (Qfloor_Z hi). apply Qfloor_resp_le. exact Hhi. }
  assert (Hup : 1 # 2 <= x - inject_Z (Qfloor x) -> (Qfloor x + 1 <= hi)%Z).
  { intro Hhalf.
    destruct (Z.eq_dec (Qfloor x) hi) as [E|E]; [|lia].
    exfalso. rewrite E in Hhalf. lra. }
  destruct (Qcompare_spec (x - inject_Z (Qfloor x)) (1 # 2)) as [E|E|E].
  - destruct (Z.even (Qfloor x)); [lia|].
    assert (1 # 2 <= x - inject_Z (Qfloor x)) by (rewrite E; apply Qle_refl).
    specialize (Hup H). lia.
  - lia.
  - specialize (Hup (Qlt_le_weak _ _ E)). lia.
Qed.

(** [round(x, ndigits)] stays between two bounds that have at most
    [ndigits] decimals. *)
Lemma round_between (lo hi : Z) (x : Q) (ndigits : nat) :
  let scale := inject_Z (10 ^ Z.of_nat ndigits) in
  inject_Z lo / scale <= x <= inject_Z hi / scale ->
  inject_Z lo / scale <= Py.round x ndigits <= inject_Z hi / scale.
Proof.
  intros scale [Hlo Hhi]. unfold Py.round. fold scale.
  assert (Hs : 0 < scale).
  { unfold scale. change 0 with (inject_Z 0). rewrite <- Zlt_Qlt.
    apply Z.pow_pos_nonneg; lia. }
  assert (Hne : ~ scale == 0) by (intro E; rewrite E in Hs; discriminate).
  destruct (round_half_even_between lo hi (x * scale)) as [H1 H2].
  { split.
    - setoid_replace (inject_Z lo) with (inject_Z lo / scale * scale)
        by (field; exact Hne).
      apply Qmult_le_compat_r; [exact Hlo | apply Qlt_le_weak, Hs].
    - setoid_replace (inject_Z hi) with (inject_Z hi / scale * scale)
        by (field; exact Hne).
      apply Qmult_le_compat_r; [exact Hhi | apply Qlt_le_weak, Hs]. }
  split.
  - apply Qle_shift_div_l; [exact Hs|].
    unfold Qdiv. rewrite <- Qmult_assoc, (Qmult_comm (/ scale)).
    rewrite Qmult_inv_r, Qmult_1_r; [|exact Hne].
    rewrite <- Zle_Qle. exact H1.
  - apply Qle_shift_div_r; [exact Hs|].
    unfold Qdiv. rewrite <- Qmult_assoc, (Qmult_comm (/ scale)).
    rewrite Qmult_inv_r, Qmult_1_r; [|exact Hne].
    rewrite <- Zle_Qle. exact H2.
Qed.

(** A percentage made from a number of the unit interval. *)
Lemma round_percent (x : Q) :
  0 <= x <= 1 -> 0 <= Py.round (x * 100) 1 <= 100.
Proof.
  intros [H0 H1].
  destruct (round_between 0 1000 (x * 100) 1) as [Ha Hb].
  - change (inject_Z 0 / inject_Z (10 ^ Z.of_nat 1)) with (0 / 10).
    change (inject_Z 1000 / inject_Z (10 ^ Z.of_nat 1)) with (1000 / 10).
    assert (E0 : 0 / 10 == 0) by reflexivity.
    assert (E1 : 1000 / 10 == 100) by reflexivity.
    rewrite E0, E1. split; lra.
  - split.
    + eapply Qle_trans; [|exact Ha]. discriminate.
    + eapply Qle_trans; [exact Hb|]. discriminate.
Qed.

(** ** Running programs *)

Section RunFacts.

Variable L : Lib.

Lemma run_bind_result {A B : Type} (m : gen A) (f : A -> gen B)
    (p : process L) :
  result (run L (bind m f) p)
  = result (run L (f (result (run L m p))) (final (run L m p))).
Proof.
  revert p. induction m as [a | c k IH]; intro p; simpl; [reflexivity|].
  apply IH.
Qed.

Lemma run_bind_events {A B : Type} (m : gen A) (f : A -> gen B)
    (p : process L) :
  events (run L (bind m f) p)
  = events (run L m p)
    ++ events (run L (f (result (run L m p))) (final (run L m p))).
Proof.
  revert p. induction m as [a | c k IH]; intro p; simpl; [reflexivity|].
  f_equal. apply IH.
Qed.

Lemma within_any : answers_within L any_answer.
Proof. intros c p. exact I. Qed.

Lemma within_beta : beta_in_unit L -> answers_within L beta_answers.
Proof.
  intros H c p. destruct c; simpl; try exact I. apply H.
Qed.

(** What holds whatever the calls answer holds of the run. *)
Lemma always_run {A : Type} (ok : answers) (m : gen A)
    (P : A -> list event -> Prop) (p : process L) :
  answers_within L ok -> always ok m P ->
  P (result (run L m p)) (events (run L m p)).
Proof.
  intro Hok. revert P p.
  induction m as [a | c k IH]; intros P p H; simpl in *; [exact H|].
  apply (IH _ (fun a evs => P a (Ev c (fst (handle L c p)) :: evs))).
  apply H. apply Hok.
Qed.

End RunFacts.

Lemma always_weaken {A : Type} (ok : answers) (m : gen A)
    (P P' : A -> list event -> Prop) :
  (forall a evs, P a evs -> P' a evs) -> always ok m P -> always ok m P'.
Proof.
  revert P P'. induction m as [a | c k IH]; intros P P' HP H; simpl in *.
  - apply HP, H.
  - intros v Hv. eapply IH; [|apply H, Hv].
    intros a evs. apply HP.
Qed.

Lemma always_bind {A B : Type} (ok : answers) (m : gen A) (f : A -> gen B)
    (P : B -> list event -> Prop) :
  always ok m (fun a evs =>
    always ok (f a) (fun b evs' => P b (evs ++ evs')%list)) ->
  always ok (bind m f) P.
Proof.
  revert P. induction m as [a | c k IH]; intros P H; simpl in *.
  - exact H.
  - intros v Hv. apply IH. apply H, Hv.
Qed.

(** ** The loop *)

Section LoopFacts.

Variable e : Q -> Q.
Variable ok : answers.
Variable P : Z -> record -> list event -> Prop.
Hypothesis round_ok : forall i, always ok (project e i) (P i).

Lemma loop_rounds (todo : nat) (i : Z) (data : table) :
  always ok (loop e todo i data) (fun t evs =>
    exists rows, t = (data ++ rows)%list /\ List.length rows = todo
                 /\ rounds P i rows evs).
Proof.
  revert i data. induction todo as [| todo IH]; intros i data; cbn [loop].
  - exists []. rewrite List.app_nil_r. repeat split. constructor.
  - apply always_bind.
    eapply always_weaken; [|apply round_ok].
    intros row evs Hrow. cbn beta.
    eapply always_weaken; [|apply IH].
    intros t evs' (rows & -> & Hlen & Hrounds).
    exists (row :: rows). rewrite <- List.app_assoc. simpl.
    repeat split; [congruence|].
    constructor; assumption.
Qed.

Lemma generate_rounds (n : Z) :
  always ok (generate_project_data e n) (fun t evs =>
    List.length t = Z.to_nat n /\ rounds P 0 t evs).
Proof.
  unfold generate_project_data.
  eapply always_weaken; [|apply loop_rounds].
  intros t evs (rows & -> & Hlen & Hrounds). simpl. split; assumption.
Qed.

End LoopFacts.

(** What holds of every round holds of every row of the table. *)
Lemma rounds_rows (P : Z -> record -> list event -> Prop) (i : Z)
    (rows : table) (evs : list event) (row : record) :
  rounds P i rows evs -> In row rows -> exists j evs', P j row evs'.
Proof.
  induction 1 as [| i r evs0 rows evs' HP _ IH]; intros Hin.
  - destruct Hin.
  - destruct Hin as [-> | Hin]; [eauto | auto].
Qed.

(** What holds of one round whatever its calls answer holds of every round
    of a call of the generator, which makes [n_projects] rounds. *)
Lemma every_round_intro (L : Lib) (ok : answers)
    (P : Z -> record -> list event -> Prop) (n : Z) (p : process L) :
  answers_within L ok ->
  (forall i, always ok (project (exp L) i) (P i)) ->
  List.length (result (call_generate L n p)) = Z.to_nat n
  /\ every_round L n p P.
Proof.
  intros Hok HP. unfold every_round, call_generate.
  apply (always_run L ok (generate_project_data (exp L) n)
           (fun t evs => List.length t = Z.to_nat n /\ rounds P 0 t evs));
    [exact Hok|].
  apply generate_rounds. exact HP.
Qed.

(** Opens one round: names the answers of its sixteen calls and splits on
    the comparison of line 71. *)
Ltac open_round :=
  unfold project, choice; cbn [always bind draw];
  intros pt Hpt ind Hind budget Hbudget team Hteam planned Hplanned
         sc Hsc se Hse ra Hra tc Htc te Hte cr Hcr dep Hdep u Hu;
  unfold outcomes;
  destruct (Py.flt u _) eqn:Ebelow;
  cbn [Py.truthy Z.eqb negb always bind draw];
  intros noise Hnoise variance Hvariance quality Hquality.

Lemma round_in_ranges (e : Q -> Q) (i : Z) :
  always beta_answers (project e i) (fun row _ => in_ranges row).
Proof.
  open_round.
  all: unfold in_ranges; eexists _, _, _, _, _, _.
  all: split; [reflexivity|].
  all: split; [apply fmax_fmin_between; lra|].
  all: split; [reflexivity|].
  all: split; [apply max_min_between; lia|].
  all: split; [reflexivity|].
  all: split; [apply max_min_between; lia|].
  all: split; [reflexivity|].
  all: split; [apply max_at_least|].
  all: split; [reflexivity|].
  all: split; [auto|].
  all: split; [reflexivity|].
  all: apply round_percent; exact Hquality.
Qed.

Lemma round_keys (e : Q -> Q) (i : Z) :
  always any_answer (project e i) (fun row _ => keys row = field_names).
Proof. open_round; reflexivity. Qed.

Lemma field_names_distinct : NoDup field_names.
Proof.
  unfold field_names.
  repeat (constructor; [simpl; intuition discriminate|]). constructor.
Qed.

(** * The properties *)

(** C1.  Every row of the table that [generate_project_data(n)] returns,
    [n >= 1], has its bounded fields in range: the budget between 50 and
    5000, the team size between 3 and 50, the planned duration between 1 and
    24, the actual duration at least 1, [success] 0 or 1 and the quality
    score between 0 and 100 -- the last one given that a Beta sample lies in
    the unit interval. *)
Theorem generated_rows_in_ranges (L : Lib) (n : Z) (p : process L)
    (row : record) :
  (1 <= n)%Z ->
  beta_in_unit L ->
  In row (result (call_generate L n p)) ->
  in_ranges row.
Proof.
  intros _ Hbeta Hin.
  destruct (every_round_intro L beta_answers (fun _ row _ => in_ranges row)
              n p (within_beta L Hbeta) (round_in_ranges (exp L)))
    as [_ Hrounds].
  destruct (rounds_rows _ _ _ _ _ Hrounds Hin) as (j & evs & H).
  exact H.
Qed.

(** C6.  For [n >= 1] the generator returns exactly [n] rows, in order, and
    the keys of each row are exactly the 17 field names, which are
    distinct; with [n = 500] it returns 500 rows. *)
Theorem generated_table_shape (L : Lib) (n : Z) (p : process L) :
  (1 <= n)%Z ->
  Z.of_nat (List.length (result (call_generate L n p))) = n
  /\ Forall (fun row => keys row = field_names) (result (call_generate L n p))
  /\ List.length field_names = 17%nat
  /\ NoDup field_names
  /\ List.length (result (call_generate L 500 p)) = 500%nat.
Proof.
  intro Hn.
  destruct (every_round_intro L any_answer
              (fun _ row _ => keys row = field_names)
              n p (within_any L) (round_keys (exp L))) as [Hlen Hrounds].
  split; [rewrite Hlen; lia|].
  split.
  { apply Forall_forall. intros row Hin.
    destruct (rounds_rows _ _ _ _ _ Hrounds Hin) as (j & evs & H). exact H. }
  split; [reflexivity|].
  split; [exact field_names_distinct|].
  destruct (every_round_intro L any_answer
              (fun _ row _ => keys row = field_names)
              500 p (within_any L) (round_keys (exp L)))
    as [Hlen' _].
  rewrite Hlen'. reflexivity.
Qed.


(** C7, as the code has it.  With [n <= 0] the generator returns the empty
    table: it makes no call to a random source and leaves the process as
    it was. *)
Theorem nonpositive_count_gives_empty_table (L : Lib) (n : Z)
    (p : process L) :
  (n <= 0)%Z ->
  result (call_generate L n p) = []
  /\ events (call_generate L n p) = []
  /\ final (call_generate L n p) = p.
Proof.
  intro Hn. unfold call_generate, generate_project_data.
  assert (Hrange : Z.to_nat n = 0%nat) by lia.
  rewrite Hrange. cbn [loop run result events final].
  split; [reflexivity|]. split; reflexivity.
Qed.

(** C8.  Two runs that each load the module, whatever the state of the
    random sources was before, and then generate [n] rows return the same
    table, make the same calls with the same answers, and so write the same
    bytes with any serialiser: the table is the one generated from the
    seeded sources, a function of the seed and of [n]. *)
Theorem fresh_runs_agree (L : Lib) (n : Z) (p1 p2 : process L)
    (to_csv : table -> string) :
  result (run L (fresh_run (exp L) n) p1)
  = result (run L (fresh_run (exp L) n) p2)
  /\ to_csv (result (run L (fresh_run (exp L) n) p1))
     = to_csv (result (run L (fresh_run (exp L) n) p2))
  /\ events (run L (fresh_run (exp L) n) p1)
     = events (run L (fresh_run (exp L) n) p2)
  /\ result (run L (fresh_run (exp L) n) p1)
     = result (call_generate L n (seeded L)).
Proof.
  assert (H : forall q, run L (fresh_run (exp L) n) q
                        = {| result := result (call_generate L n (seeded L));
                             final := final (call_generate L n (seeded L));
                             events := Ev (NpSeed 42) tt :: Ev (PySeed 42) tt
                                       :: events (call_generate L n (seeded L)) |}).
  { intro q. unfold fresh_run, module_init. simpl. reflexivity. }
  rewrite (H p1), (H p2). simpl. repeat split.
Qed.

Lemma risk_score_formula (sc se ra tc te : Q) (cr dep : Z) :
  risk_score sc se ra tc te cr dep == risk_formula sc se ra tc te cr dep.
Proof.
  unfold risk_score, risk_formula, Py.truediv.
  change (inject_Z 10) with 10. ring.
Qed.

Lemma round_scored (e : Q -> Q) (i : Z) :
  always any_answer (project e i) (fun row evs => scored e row evs).
Proof.
  open_round.
  all: unfold scored; eexists _, _, _.
  all: split; [reflexivity|].
  all: split; [reflexivity|].
  all: split; [apply risk_score_formula|].
  all: split; [reflexivity|].
  all: rewrite Ebelow; reflexivity.
Qed.

(** C2.  The risk score is the weighted sum
    [0.2*(10-scope_clarity) + 0.15*(10-stakeholder_engagement)
     + 0.2*(10-resource_availability) + 0.15*technical_complexity
     + 0.15*(10-team_experience) + 0.10*(change_requests/10)
     + 0.05*(external_dependencies/10)], the seven weights add up to 1, and
    in every round the score so computed from the fields of the row is the
    one its success was decided with. *)
Theorem risk_score_is_weighted_sum :
  (forall (sc se ra tc te : Q) (cr dep : Z),
      risk_score sc se ra tc te cr dep
      == 0.2 * (10 - sc) + 0.15 * (10 - se) + 0.2 * (10 - ra) + 0.15 * tc
         + 0.15 * (10 - te) + 0.10 * (inject_Z cr / 10)
         + 0.05 * (inject_Z dep / 10))
  /\ total weights == 1
  /\ (forall (L : Lib) (n : Z) (p : process L),
         every_round L n p (fun _ row evs => scored (exp L) row evs)).
Proof.
  split; [exact risk_score_formula|].
  split; [reflexivity|].
  intros L n p.
  apply (every_round_intro L any_answer
           (fun _ row evs => scored (exp L) row evs) n p (within_any L)).
  apply round_scored.
Qed.

(** ** The logistic transform *)

Section Logistic.

Variable e : Q -> Q.
Hypothesis e_positive : exp_positive e.
Hypothesis e_increasing : exp_increasing e.

Lemma success_probability_in_unit (risk : Q) :
  0 < success_probability e risk < 1.
Proof.
  unfold success_probability.
  pose proof (e_positive ((risk - 5) / 2)) as He.
  split.
  - apply Qlt_shift_div_l; lra.
  - apply Qlt_shift_div_r; lra.
Qed.

Lemma success_probability_decreasing (r1 r2 : Q) :
  r1 < r2 -> success_probability e r2 < success_probability e r1.
Proof.
  intro Hlt. unfold success_probability.
  assert (Harg : (r1 - 5) / 2 < (r2 - 5) / 2).
  { apply Qlt_shift_div_l; [reflexivity|].
    setoid_replace ((r1 - 5) / 2 * 2) with (r1 - 5) by field. lra. }
  pose proof (e_increasing _ _ Harg) as Hinc.
  pose proof (e_positive ((r1 - 5) / 2)) as H1.
  pose proof (e_positive ((r2 - 5) / 2)) as H2.
  set (x1 := e ((r1 - 5) / 2)) in *. set (x2 := e ((r2 - 5) / 2)) in *.
  unfold Qdiv. rewrite !Qmult_1_l.
  apply -> Qinv_lt_contravar; lra.
Qed.

End Logistic.

Lemma round_bernoulli (e : Q -> Q) (i : Z) :
  always any_answer (project e i) (fun row evs => bernoulli e row evs).
Proof.
  open_round.
  all: unfold bernoulli; eexists _, _.
  all: split; [reflexivity|].
  all: split; [reflexivity|].
  all: rewrite Ebelow; reflexivity.
Qed.

(** C3.  The success probability is [1 / (1 + exp((risk_score - 5) / 2))];
    with an exponential that is positive and strictly increasing it is
    strictly decreasing in the risk score and lies strictly between 0 and
    1; and in every round exactly one call to [random.random()] is made,
    [success] being 1 when its answer is below the success probability of
    the row and 0 otherwise. *)
Theorem success_is_one_bernoulli_draw (L : Lib) :
  exp_positive (exp L) ->
  exp_increasing (exp L) ->
  (forall risk,
      success_probability (exp L) risk
      == 1 / (1 + exp L ((risk - 5) / 2)))
  /\ (forall r1 r2, r1 < r2 ->
        success_probability (exp L) r2 < success_probability (exp L) r1)
  /\ (forall risk, 0 < success_probability (exp L) risk < 1)
  /\ (forall (n : Z) (p : process L),
         every_round L n p (fun _ row evs => bernoulli (exp L) row evs)).
Proof.
  intros Hpos Hinc.
  split; [intro risk; reflexivity|].
  split; [apply success_probability_decreasing; assumption|].
  split; [apply success_probability_in_unit; assumption|].
  intros n p.
  apply (every_round_intro L any_answer
           (fun _ row evs => bernoulli (exp L) row evs) n p (within_any L)).
  apply round_bernoulli.
Qed.

(** ** Facts about [rounds] *)

(** A table of one row: its round made all the calls. *)
Lemma rounds_single (P : Z -> record -> list event -> Prop) (i : Z)
    (rows : table) (evs : list event) :
  rounds P i rows evs -> List.length rows = 1%nat -> P i (nth 0 rows []) evs.
Proof.
  intros H Hlen. destruct H as [| i row evs rows evs' HP Hrest];
    [discriminate|].
  destruct Hrest; [|discriminate].
  rewrite List.app_nil_r. exact HP.
Qed.


(** ** The duration noise *)

(** [int()] drops the fractional part: it is the floor of a number that is
    not negative and the ceiling of a number that is not positive. *)
Lemma int_of_nonnegative (x : Q) : 0 <= x -> Py.int x = Qfloor x.
Proof.
  destruct x as [num den]. unfold Qle, Py.int, Qfloor. simpl. intro H.
  apply Z.quot_div_nonneg; lia.
Qed.

Lemma int_of_nonpositive (x : Q) : x <= 0 -> Py.int x = Qceiling x.
Proof.
  destruct x as [num den]. unfold Qle, Py.int, Qceiling, Qfloor. simpl.
  intro H.
  rewrite <- (Z.opp_involutive num) at 1.
  rewrite Z.quot_opp_l by lia. f_equal.
  apply Z.quot_div_nonneg; lia.
Qed.

Lemma round_duration (e : Q -> Q) (i : Z) :
  always any_answer (project e i)
    (fun row evs => duration_law Py.int row evs).
Proof.
  open_round.
  all: unfold duration_law; eexists _, _, _, _, _, _.
  all: split; [reflexivity|].
  all: split; [reflexivity|].
  all: split; [reflexivity|].
  all: split; [(left; repeat split; reflexivity)
               || (right; repeat split; reflexivity)|].
  all: split; reflexivity.
Qed.

(** C4, as the code has it.  In every round the duration noise is made an
    int by [int()], that is truncated toward zero, before it is added to
    the planned duration: the actual duration is the planned one plus
    [int(Normal(0,2))] after a success and plus [int(Normal(5,3))] after a
    failure, and at least 1. *)
Theorem duration_noise_is_truncated (L : Lib) (n : Z) (p : process L) :
  every_round L n p (fun _ row evs => duration_law Py.int row evs)
  /\ (forall x, 0 <= x -> Py.int x = Qfloor x)
  /\ (forall x, x <= 0 -> Py.int x = Qceiling x).
Proof.
  split; [|split; [exact int_of_nonnegative | exact int_of_nonpositive]].
  apply (every_round_intro L any_answer
           (fun _ row evs => duration_law Py.int row evs) n p (within_any L)).
  apply round_duration.
Qed.

(** C4, as stated, fails: in the one round of this run the noise is 1.7
    and the planned duration 5; rounding to the nearest integer would give
    an actual duration of 7, the code gives 6. *)
Lemma duration_noise_is_not_rounded :
  ~ every_round Tape.example 1 Tape.seeded
      (fun _ row evs => duration_law Py.round_half_even row evs).
Proof.
  intro H. apply rounds_single in H; [|reflexivity].
  destruct H as (planned & success & loc & scale & noise & actual
                 & Hplanned & _ & Hnoise & _ & Hactual & Hlaw).
  vm_compute in Hplanned. vm_compute in Hnoise. vm_compute in Hactual.
  injection Hplanned as <-. injection Hnoise as <- <- <-.
  injection Hactual as <-.
  vm_compute in Hlaw. discriminate.
Qed.

(** ** The calls of a round *)

Lemma round_draws (e : Q -> Q) (i : Z) :
  always any_answer (project e i)
    (fun row evs => draws_selected row evs
                    /\ map call_kind (map event_call evs) = round_kinds).
Proof.
  open_round.
  all: split; [|reflexivity].
  all: unfold draws_selected; eexists; split; reflexivity.
Qed.

(** C9, as the code has it.  A round makes the thirteen calls up to the
    Bernoulli draw and then the three calls of one branch only: normal,
    normal, Beta with the parameters of a success when [success] is 1 and
    with those of a failure when it is 0.  The number of calls, sixteen, and
    the order of their kinds are the same in both cases. *)
Theorem outcome_draws_follow_the_outcome (L : Lib) (n : Z) (p : process L) :
  every_round L n p
    (fun _ row evs => draws_selected row evs
                      /\ map call_kind (map event_call evs) = round_kinds).
Proof.
  apply (every_round_intro L any_answer
           (fun _ row evs => draws_selected row evs
              /\ map call_kind (map event_call evs) = round_kinds)
           n p (within_any L)).
  apply round_draws.
Qed.

(** C9, as stated, fails: the one round of this run is a success and makes
    no call with the parameters of a failure. *)
Lemma failure_draws_skipped_on_success :
  ~ every_round Tape.example 1 Tape.seeded (fun _ _ evs => draws_both evs).
Proof.
  intro H. apply rounds_single in H; [|reflexivity].
  specialize (H (NpNormal 5 3)).
  assert (Hin : In (NpNormal 5 3) (calls_on_success ++ calls_on_failure))
    by (simpl; auto).
  apply H in Hin. vm_compute in Hin.
  repeat (destruct Hin as [Hin | Hin]; [discriminate|]).
  exact Hin.
Qed.

(** ** Project ids *)

Lemma to_uint_not_nil (k : N) : N.to_uint k <> Decimal.Nil.
Proof.
  intro E. pose proof (DecimalN.Unsigned.of_to k) as H.
  rewrite E in H. simpl in H. subst k. discriminate E.
Qed.

(** Reading back the digits of a number. *)
Lemma read_digits (k : N) :
  NilEmpty.uint_of_string (Py.digits k) = Some (N.to_uint k).
Proof.
  unfold Py.digits, NilZero.string_of_uint.
  pose proof (to_uint_not_nil k) as Hk.
  destruct (N.to_uint k) eqn:E; try contradiction;
    rewrite <- E; apply NilEmpty.usu.
Qed.

(** Leading zeros do not change the number read. *)
Lemma read_zeros (m : nat) (s : string) :
  option_map N.of_uint (NilEmpty.uint_of_string (Py.zeros m ++ s)%string)
  = option_map N.of_uint (NilEmpty.uint_of_string s).
Proof.
  induction m as [| m IH]; [reflexivity|].
  simpl. simpl in IH.
  destruct (NilEmpty.uint_of_string (Py.zeros m ++ s)%string);
    destruct (NilEmpty.uint_of_string s); simpl in *; congruence.
Qed.

Lemma id_number_padded (k : N) : id_number (padded_id k) = Some k.
Proof.
  unfold padded_id, Py.zfill. simpl. change (id_number _) with
    (option_map N.of_uint
       (NilEmpty.uint_of_string
          (Py.zeros (4 - String.length (Py.digits k)) ++ Py.digits k)%string)).
  rewrite read_zeros, read_digits. simpl.
  f_equal. apply DecimalN.Unsigned.of_to.
Qed.

Lemma padded_id_injective (j k : N) : padded_id j = padded_id k -> j = k.
Proof.
  intro E. pose proof (id_number_padded j) as Hj.
  rewrite E, id_number_padded in Hj. congruence.
Qed.

(** The id of the round of index [i] is the padded 1-based position. *)
Lemma project_id_padded (i : Z) :
  (0 <= i)%Z -> project_id i = padded_id (Z.to_N (i + 1)).
Proof.
  intro Hi. unfold project_id, padded_id, Py.format_04d.
  destruct (i + 1 <? 0)%Z eqn:E; [lia | reflexivity].
Qed.

Lemma round_id (e : Q -> Q) (i : Z) :
  always any_answer (project e i)
    (fun row _ => get "project_id" row = Some (VStr (project_id i))).
Proof. open_round; reflexivity. Qed.

Lemma rounds_ids (i : Z) (rows : table) (evs : list event) :
  rounds (fun j row _ => get "project_id" row = Some (VStr (project_id j)))
         i rows evs ->
  (0 <= i)%Z ->
  project_ids rows
  = map id_value (count_from (Z.to_N (i + 1)) (List.length rows)).
Proof.
  induction 1 as [| i row evs rows evs' Hrow _ IH]; intro Hi;
    [reflexivity|].
  simpl. rewrite Hrow, IH by lia.
  unfold id_value at 1. rewrite project_id_padded by exact Hi.
  do 3 f_equal. lia.
Qed.

Lemma nth_error_count_from (len : nat) (first : N) (i : nat) :
  (i < len)%nat ->
  nth_error (count_from first len) i = Some (first + N.of_nat i)%N.
Proof.
  revert first i. induction len as [| len IH]; intros first i Hi; [lia|].
  destruct i as [| i]; simpl.
  - f_equal. lia.
  - rewrite IH by lia. f_equal. lia.
Qed.

Lemma count_from_length (len : nat) (first : N) :
  List.length (count_from first len) = len.
Proof.
  revert first. induction len as [| len IH]; intro first; simpl;
    [reflexivity | f_equal; apply IH].
Qed.

(** The ids of the positions [first], [first + 1], ... by index. *)
Lemma nth_error_ids (len : nat) (first : N) (i : nat) :
  (i < len)%nat ->
  nth_error (map id_value (count_from first len)) i
  = Some (id_value (first + N.of_nat i)).
Proof.
  intro Hi. rewrite nth_error_map, nth_error_count_from by exact Hi.
  reflexivity.
Qed.

Lemma nth_error_ids_inv (len : nat) (first : N) (i : nat) (a : string) :
  nth_error (map id_value (count_from first len)) i = Some (Some (VStr a)) ->
  (i < len)%nat /\ a = padded_id (first + N.of_nat i).
Proof.
  intro H.
  assert (Hi : (i < len)%nat).
  { rewrite <- (count_from_length len first), <- (length_map id_value).
    apply nth_error_Some. congruence. }
  split; [exact Hi|].
  rewrite nth_error_ids in H by exact Hi. unfold id_value in H. congruence.
Qed.

Lemma ids_distinct (len : nat) (first : N) :
  NoDup (map id_value (count_from first len)).
Proof.
  apply NoDup_nth_error. intros i j Hi E.
  rewrite length_map, count_from_length in Hi.
  rewrite nth_error_ids in E by exact Hi.
  symmetry in E. apply nth_error_ids_inv in E. destruct E as [Hj E].
  apply padded_id_injective in E. lia.
Qed.

(** The padding is a minimal width: a position of five digits keeps them
    all. *)
Lemma padded_id_examples :
  padded_id 1 = "PRJ_0001" /\ padded_id 500 = "PRJ_0500"
  /\ padded_id 9999 = "PRJ_9999" /\ padded_id 10000 = "PRJ_10000".
Proof. repeat split. Qed.

(** C5.  For [n >= 1] the id of the row of index [i] (from 0) is ["PRJ_"]
    followed by [i + 1] padded with zeros to four digits; so the ids are
    pairwise distinct, their numbers grow strictly with the position, the
    first is [PRJ_0001] and the last is the padded [n]. *)
Theorem project_ids_are_padded_positions (L : Lib) (n : Z) (p : process L) :
  (1 <= n)%Z ->
  let ids := project_ids (result (call_generate L n p)) in
  (forall i : Z, (0 <= i < n)%Z ->
      nth_error ids (Z.to_nat i)
      = Some (Some (VStr ("PRJ_" ++ Py.zfill 4 (Py.digits (Z.to_N (i + 1))))
                    %string)))
  /\ NoDup ids
  /\ ids_increase ids
  /\ nth_error ids 0 = Some (Some (VStr "PRJ_0001"))
  /\ nth_error ids (Z.to_nat (n - 1)) = Some (id_value (Z.to_N n)).
Proof.
  intros Hn ids.
  destruct (every_round_intro L any_answer
              (fun j row _ =>
                 get "project_id" row = Some (VStr (project_id j)))
              n p (within_any L) (round_id (exp L))) as [Hlen Hrounds].
  assert (Hids : ids = map id_value (count_from 1 (Z.to_nat n))).
  { unfold ids. rewrite (rounds_ids _ _ _ Hrounds) by lia.
    rewrite Hlen. reflexivity. }
  rewrite Hids.
  split.
  { intros i Hi. rewrite nth_error_ids by lia.
    replace (1 + N.of_nat (Z.to_nat i))%N with (Z.to_N (i + 1)) by lia.
    reflexivity. }
  split; [apply ids_distinct|].
  split.
  { intros i j a b Hij Ha Hb.
    apply nth_error_ids_inv in Ha. destruct Ha as [Hi ->].
    apply nth_error_ids_inv in Hb. destruct Hb as [Hj ->].
    exists (1 + N.of_nat i)%N, (1 + N.of_nat j)%N.
    rewrite !id_number_padded. repeat split. lia. }
  split.
  { rewrite nth_error_ids by lia. reflexivity. }
  rewrite nth_error_ids by lia.
  replace (1 + N.of_nat (Z.to_nat (n - 1)))%N with (Z.to_N n) by lia.
  reflexivity.
Qed.

(** C7, as stated, fails: called with 0 the generator returns a table, the
    empty one. *)
Lemma zero_count_is_not_rejected : ~ rejected Tape.example 0 Tape.seeded.
Proof. intro H. apply (H []). reflexivity. Qed.

(** ** Successive calls in one process *)










(** * The properties on a run

    The tape library meets what the properties assume of a library, and
    the properties are applied to runs on it. *)

Lemma tape_beta_in_unit : beta_in_unit Tape.example.
Proof.
  intros a b s. simpl. unfold Tape.pop, Tape.clamp01.
  destruct s as [| q s]; simpl; apply fmax_fmin_between; lra.
Qed.

Lemma grow_positive : exp_positive Tape.grow.
Proof.
  intro x. unfold Tape.grow.
  destruct (Py.flt x 0) eqn:E.
  - apply flt_true in E. apply Qlt_shift_div_l; lra.
  - apply flt_false in E. lra.
Qed.

Lemma grow_increasing : exp_increasing Tape.grow.
Proof.
  intros x y Hxy. unfold Tape.grow.
  destruct (Py.flt x 0) eqn:Ex; destruct (Py.flt y 0) eqn:Ey.
  - apply flt_true in Ex. apply flt_true in Ey.
    unfold Qdiv. rewrite !Qmult_1_l.
    apply -> Qinv_lt_contravar; lra.
  - apply flt_true in Ex. apply flt_false in Ey.
    apply Qlt_le_trans with 1; [|lra].
    apply Qlt_shift_div_r; lra.
  - apply flt_false in Ex. apply flt_true in Ey. lra.
  - lra.
Qed.

(** C4 on a run of two rounds, and on the noise 1.7 of its first round,
    which [int()] makes 1. *)
Lemma duration_noise_is_truncated_witness :
  every_round Tape.example 2 Tape.seeded
    (fun _ row evs => duration_law Py.int row evs)
  /\ 0 <= 1.7 /\ Py.int 1.7 = 1%Z.
Proof.
  destruct (duration_noise_is_truncated Tape.example 2 Tape.seeded)
    as (Hround & Hfloor & _).
  split; [exact Hround|]. split; [discriminate|].
  rewrite (Hfloor 1.7); [reflexivity | discriminate].
Defined.

(** C1 on the second row of a run of two rounds. *)
Lemma generated_rows_in_ranges_witness :
  (1 <= 2)%Z
  /\ beta_in_unit Tape.example
  /\ in_ranges (nth 1 (result (call_generate Tape.example 2 Tape.seeded)) []).
Proof.
  split; [lia|]. split; [exact tape_beta_in_unit|].
  apply (generated_rows_in_ranges Tape.example 2 Tape.seeded);
    [lia | exact tape_beta_in_unit | vm_compute; right; left; reflexivity].
Defined.

(** C6 on a run of two rounds. *)
Lemma generated_table_shape_witness :
  (1 <= 2)%Z
  /\ Z.of_nat (List.length (result (call_generate Tape.example 2 Tape.seeded)))
     = 2%Z.
Proof.
  split; [lia|].
  apply (generated_table_shape Tape.example 2 Tape.seeded). lia.
Defined.

(** C7 on a call with -3. *)
Lemma nonpositive_count_gives_empty_table_witness :
  (-3 <= 0)%Z /\ result (call_generate Tape.example (-3) Tape.seeded) = [].
Proof.
  split; [lia|].
  apply (nonpositive_count_gives_empty_table Tape.example (-3) Tape.seeded).
  lia.
Defined.

(** C3 with [Tape.grow] in the place of the exponential. *)
Lemma success_is_one_bernoulli_draw_witness :
  exp_positive (exp Tape.example)
  /\ exp_increasing (exp Tape.example)
  /\ 0 < success_probability (exp Tape.example) 7 < 1
  /\ every_round Tape.example 2 Tape.seeded
       (fun _ row evs => bernoulli (exp Tape.example) row evs).
Proof.
  split; [exact grow_positive|]. split; [exact grow_increasing|].
  destruct (success_is_one_bernoulli_draw Tape.example
              grow_positive grow_increasing) as (_ & _ & Hunit & Hround).
  split; [apply Hunit | apply Hround].
Defined.

(** C5 on the second row of a run of two rounds. *)
Lemma project_ids_are_padded_positions_witness :
  (1 <= 2)%Z
  /\ nth_error
       (project_ids (result (call_generate Tape.example 2 Tape.seeded))) 1
     = Some (Some (VStr "PRJ_0002")).
Proof.
  split; [lia|].
  destruct (project_ids_are_padded_positions Tape.example 2 Tape.seeded)
    as (Hid & _); [lia|].
  apply (Hid 1%Z). lia.
Defined.

(** * Further properties of the generator *)

(** ** The risk factors *)

Lemma within_sampler (L : Lib) :
  beta_in_unit L -> uniform_in_bounds L -> poisson_nonnegative L ->
  answers_within L sampler_answers.
Proof.
  intros Hbeta Huniform Hpoisson c p.
  destruct c; simpl; try exact I.
  - apply Hbeta.
  - apply Huniform.
  - apply Hpoisson.
Qed.

Lemma within_choice (L : Lib) :
  choice_in_range L -> answers_within L choice_answers.
Proof.
  intros Hchoice c p. destruct c; simpl; try exact I. apply Hchoice.
Qed.

(** A score made from a number of the unit interval. *)
Lemma round_score (x : Q) : 0 <= x <= 1 -> 0 <= Py.round (x * 10) 1 <= 10.
Proof.
  intros [H0 H1].
  destruct (round_between 0 100 (x * 10) 1) as [Ha Hb].
  - change (inject_Z 0 / inject_Z (10 ^ Z.of_nat 1)) with (0 / 10).
    change (inject_Z 100 / inject_Z (10 ^ Z.of_nat 1)) with (100 / 10).
    assert (E0 : 0 / 10 == 0) by reflexivity.
    assert (E1 : 100 / 10 == 10) by reflexivity.
    rewrite E0, E1. split; lra.
  - split.
    + eapply Qle_trans; [|exact Ha]. discriminate.
    + eapply Qle_trans; [exact Hb|]. discriminate.
Qed.

Lemma round_complexity (x : Q) : 1 <= x <= 10 -> 1 <= Py.round x 1 <= 10.
Proof.
  intros [H0 H1].
  destruct (round_between 10 100 x 1) as [Ha Hb].
  - change (inject_Z 10 / inject_Z (10 ^ Z.of_nat 1)) with (10 / 10).
    change (inject_Z 100 / inject_Z (10 ^ Z.of_nat 1)) with (100 / 10).
    assert (E0 : 10 / 10 == 1) by reflexivity.
    assert (E1 : 100 / 10 == 10) by reflexivity.
    rewrite E0, E1. split; assumption.
  - split.
    + eapply Qle_trans; [|exact Ha]. discriminate.
    + eapply Qle_trans; [exact Hb|]. discriminate.
Qed.

(** The risk score of factors that lie in their ranges. *)
Lemma risk_score_bounds (sc se ra tc te : Q) (cr dep : Z) :
  0 <= sc <= 10 -> 0 <= se <= 10 -> 0 <= ra <= 10 -> 1 <= tc <= 10 ->
  0 <= te <= 10 -> (0 <= cr)%Z -> (0 <= dep)%Z ->
  0.15 <= risk_score sc se ra tc te cr dep
  /\ risk_score sc se ra tc te cr dep
     <= 8.5 + inject_Z cr / 100 + inject_Z dep / 200.
Proof.
  intros Hsc Hse Hra Htc Hte Hcr Hdep.
  assert (Hc : 0 <= inject_Z cr)
    by (change 0 with (inject_Z 0); rewrite <- Zle_Qle; exact Hcr).
  assert (Hd : 0 <= inject_Z dep)
    by (change 0 with (inject_Z 0); rewrite <- Zle_Qle; exact Hdep).
  unfold risk_score, Py.truediv, Qdiv.
  change (/ inject_Z 10) with (1 # 10).
  change (/ 100) with (1 # 100). change (/ 200) with (1 # 200).
  split; lra.
Qed.

Lemma round_factors (e : Q -> Q) (i : Z) :
  always sampler_answers (project e i) (fun row _ => factors_in_ranges row).
Proof.
  open_round.
  all: assert (Htc' : 1 <= tc <= 10) by (apply Htc; discriminate).
  all: pose proof (round_score sc Hsc) as Rsc.
  all: pose proof (round_score se Hse) as Rse.
  all: pose proof (round_score ra Hra) as Rra.
  all: pose proof (round_complexity tc Htc') as Rtc.
  all: pose proof (round_score te Hte) as Rte.
  all: unfold factors_in_ranges; eexists _, _, _, _, _, _, _, _.
  all: do 7 (split; [reflexivity|]).
  all: do 5 (split; [eassumption|]).
  all: do 2 (split; [eassumption|]).
  all: split; [reflexivity|].
  all: apply risk_score_bounds; assumption.
Qed.

(** X1.  Given that a Beta sample lies in the unit interval, a uniform
    sample between its bounds and a Poisson sample is not negative, every
    row has its four Beta-made scores between 0 and 10, its technical
    complexity between 1 and 10 and its two counts not negative, and its
    risk score is at least 0.15 and at most
    [8.5 + change_requests/100 + external_dependencies/200]. *)
Theorem generated_factors_in_ranges (L : Lib) (n : Z) (p : process L)
    (row : record) :
  beta_in_unit L -> uniform_in_bounds L -> poisson_nonnegative L ->
  In row (result (call_generate L n p)) ->
  factors_in_ranges row.
Proof.
  intros Hbeta Huniform Hpoisson Hin.
  destruct (every_round_intro L sampler_answers
              (fun _ row _ => factors_in_ranges row) n p
              (within_sampler L Hbeta Huniform Hpoisson)
              (round_factors (exp L))) as [_ Hrounds].
  destruct (rounds_rows _ _ _ _ _ Hrounds Hin) as (j & evs & H).
  exact H.
Qed.

(** ** The labels *)

Lemma round_labelled (e : Q -> Q) (i : Z) :
  always choice_answers (project e i) (fun row _ => labelled row).
Proof.
  open_round.
  all: unfold labelled; eexists _, _.
  all: split; [reflexivity|].
  all: split; [apply nth_In; apply Hpt; simpl; lia|].
  all: split; [reflexivity|].
  all: apply nth_In; apply Hind; simpl; lia.
Qed.

(** X2.  Given that [random.choice] picks a position of the sequence, the
    project type of every row is one of the five project types and its
    industry one of the five industries. *)
Theorem generated_rows_labelled (L : Lib) (n : Z) (p : process L)
    (row : record) :
  choice_in_range L ->
  In row (result (call_generate L n p)) ->
  labelled row.
Proof.
  intros Hchoice Hin.
  destruct (every_round_intro L choice_answers
              (fun _ row _ => labelled row) n p
              (within_choice L Hchoice) (round_labelled (exp L)))
    as [_ Hrounds].
  destruct (rounds_rows _ _ _ _ _ Hrounds Hin) as (j & evs & H).
  exact H.
Qed.

(** ** Decimals *)

Lemma round_has_decimals (x : Q) (k : nat) : has_decimals k (Py.round x k).
Proof. eexists. unfold Py.round. reflexivity. Qed.

Lemma clamp_has_decimals (x : Q) :
  has_decimals 2 x -> has_decimals 2 (Py.fmax 50 (Py.fmin x 5000)).
Proof.
  intro Hx. unfold Py.fmax, Py.fmin.
  destruct (Py.flt 5000 x).
  - destruct (Py.flt 50 5000); [exists 500000%Z | exists 5000%Z]; reflexivity.
  - destruct (Py.flt 50 x); [exact Hx | exists 5000%Z; reflexivity].
Qed.

Lemma round_rounded_cells (e : Q -> Q) (i : Z) :
  always any_answer (project e i) (fun row _ => rounded_cells row).
Proof.
  open_round.
  all: unfold rounded_cells; eexists _, _, _, _, _, _, _, _.
  all: do 8 (split; [reflexivity|]).
  all: split; [apply clamp_has_decimals, round_has_decimals|].
  all: repeat split; apply round_has_decimals.
Qed.

(** X3.  In every row the budget has at most two decimals, also when it was
    clamped to 50 or 5000, and the five factor scores, the budget variance
    and the quality score have at most one. *)
Theorem generated_cells_rounded (L : Lib) (n : Z) (p : process L)
    (row : record) :
  In row (result (call_generate L n p)) -> rounded_cells row.
Proof.
  intro Hin.
  destruct (every_round_intro L any_answer
              (fun _ row _ => rounded_cells row) n p
              (within_any L) (round_rounded_cells (exp L)))
    as [_ Hrounds].
  destruct (rounds_rows _ _ _ _ _ Hrounds Hin) as (j & evs & H).
  exact H.
Qed.

(** ** How the factors move the success probability *)

Section Factors.

Variable e : Q -> Q.
Hypothesis e_positive : exp_positive e.
Hypothesis e_increasing : exp_increasing e.

Variables sc se ra tc te : Q.
Variables cr dep : Z.

Ltac by_risk :=
  apply success_probability_decreasing; try assumption;
  unfold risk_score, Py.truediv, Qdiv; change (/ inject_Z 10) with (1 # 10);
  lra.

Lemma more_scope_clarity (sc' : Q) :
  sc < sc' -> success_probability e (risk_score sc se ra tc te cr dep)
  < success_probability e (risk_score sc' se ra tc te cr dep).
Proof. intro H. by_risk. Qed.

Lemma more_stakeholder_engagement (se' : Q) :
  se < se' -> success_probability e (risk_score sc se ra tc te cr dep)
  < success_probability e (risk_score sc se' ra tc te cr dep).
Proof. intro H. by_risk. Qed.

Lemma more_resource_availability (ra' : Q) :
  ra < ra' -> success_probability e (risk_score sc se ra tc te cr dep)
  < success_probability e (risk_score sc se ra' tc te cr dep).
Proof. intro H. by_risk. Qed.

Lemma more_team_experience (te' : Q) :
  te < te' -> success_probability e (risk_score sc se ra tc te cr dep)
  < success_probability e (risk_score sc se ra tc te' cr dep).
Proof. intro H. by_risk. Qed.

Lemma more_technical_complexity (tc' : Q) :
  tc < tc' -> success_probability e (risk_score sc se ra tc' te cr dep)
  < success_probability e (risk_score sc se ra tc te cr dep).
Proof. intro H. by_risk. Qed.

Lemma more_change_requests (cr' : Z) :
  (cr < cr')%Z ->
  success_probability e (risk_score sc se ra tc te cr' dep)
  < success_probability e (risk_score sc se ra tc te cr dep).
Proof. intro H. rewrite Zlt_Qlt in H. by_risk. Qed.

Lemma more_dependencies (dep' : Z) :
  (dep < dep')%Z ->
  success_probability e (risk_score sc se ra tc te cr dep')
  < success_probability e (risk_score sc se ra tc te cr dep).
Proof. intro H. rewrite Zlt_Qlt in H. by_risk. Qed.

End Factors.

(** X4.  With an exponential that is positive and strictly increasing, the
    success probability of line 70, as a function of the seven risk factors
    through the risk score of lines 59-67, rises strictly with the scope
    clarity, the stakeholder engagement, the resource availability and the
    team experience, and falls strictly with the technical complexity, the
    change requests and the external dependencies, the other factors being
    kept. *)
Theorem factors_move_success_probability (e : Q -> Q)
    (sc se ra tc te : Q) (cr dep : Z) :
  exp_positive e ->
  exp_increasing e ->
  let chance sc se ra tc te cr dep :=
    success_probability e (risk_score sc se ra tc te cr dep) in
  (forall sc', sc < sc' ->
     chance sc se ra tc te cr dep < chance sc' se ra tc te cr dep)
  /\ (forall se', se < se' ->
        chance sc se ra tc te cr dep < chance sc se' ra tc te cr dep)
  /\ (forall ra', ra < ra' ->
        chance sc se ra tc te cr dep < chance sc se ra' tc te cr dep)
  /\ (forall te', te < te' ->
        chance sc se ra tc te cr dep < chance sc se ra tc te' cr dep)
  /\ (forall tc', tc < tc' ->
        chance sc se ra tc' te cr dep < chance sc se ra tc te cr dep)
  /\ (forall cr', (cr < cr')%Z ->
        chance sc se ra tc te cr' dep < chance sc se ra tc te cr dep)
  /\ (forall dep', (dep < dep')%Z ->
        chance sc se ra tc te cr dep' < chance sc se ra tc te cr dep).
Proof.
  intros Hpos Hinc chance.
  split; [apply more_scope_clarity; assumption|].
  split; [apply more_stakeholder_engagement; assumption|].
  split; [apply more_resource_availability; assumption|].
  split; [apply more_team_experience; assumption|].
  split; [apply more_technical_complexity; assumption|].
  split; [apply more_change_requests; assumption|].
  apply more_dependencies; assumption.
Qed.

(** ** How many calls a run makes *)

Lemma round_counts (e : Q -> Q) (i : Z) :
  always any_answer (project e i)
    (fun _ evs => List.length evs = 16%nat
                  /\ List.length (py_events evs) = 3%nat
                  /\ List.length (np_events evs) = 13%nat).
Proof. open_round; repeat split. Qed.

Lemma rounds_counts (i : Z) (rows : table) (evs : list event) :
  rounds (fun _ _ evs' => List.length evs' = 16%nat
                          /\ List.length (py_events evs') = 3%nat
                          /\ List.length (np_events evs') = 13%nat)
         i rows evs ->
  List.length evs = (16 * List.length rows)%nat
  /\ List.length (py_events evs) = (3 * List.length rows)%nat
  /\ List.length (np_events evs) = (13 * List.length rows)%nat.
Proof.
  induction 1 as [| i row evs rows evs' (H16 & H3 & H13) _ (IH16 & IH3 & IH13)].
  - repeat split.
  - unfold py_events, np_events in *.
    rewrite !filter_app, !length_app. simpl List.length. lia.
Qed.

(** X5.  A call that generates [n] rows makes exactly [16 n] calls to the
    random sources: [3 n] to the [random] module of Python and [13 n] to
    NumPy, whatever the outcomes of the rounds. *)
Theorem generation_makes_sixteen_calls_a_row (L : Lib) (n : Z)
    (p : process L) :
  let evs := events (call_generate L n p) in
  List.length evs = (16 * Z.to_nat n)%nat
  /\ List.length (py_events evs) = (3 * Z.to_nat n)%nat
  /\ List.length (np_events evs) = (13 * Z.to_nat n)%nat.
Proof.
  intro evs.
  destruct (every_round_intro L any_answer _ n p (within_any L)
              (round_counts (exp L))) as [Hlen Hrounds].
  apply rounds_counts in Hrounds. rewrite Hlen in Hrounds. exact Hrounds.
Qed.

(** ** What the rounds take from [random] *)

Section PythonStream.

Variable L : Lib.

Lemma run_bind_final {A B : Type} (m : gen A) (f : A -> gen B)
    (p : process L) :
  final (run L (bind m f) p)
  = final (run L (f (result (run L m p))) (final (run L m p))).
Proof.
  revert p. induction m as [a | c k IH]; intro p; simpl; [reflexivity|].
  apply IH.
Qed.

(** The labels of a round and the state it leaves [random] in are those of
    two choices and one uniform draw from the state it found. *)
Lemma py_view_of_round (i : Z) (p : process L) :
  categories (result (call_project L i p)) = fst (py_round L (py_rng p))
  /\ py_rng (final (call_project L i p)) = snd (py_round L (py_rng p)).
Proof.
  unfold call_project, project, choice, outcomes, py_round, categories.
  cbn [run bind draw handle on_py on_np fst snd result final py_rng np_rng
       List.length project_types industries].
  destruct (Py.flt _ _);
    cbn [Py.truthy Z.eqb negb run bind draw handle on_py on_np fst snd
         result final py_rng np_rng];
    split; reflexivity.
Qed.

Lemma py_view_of_loop (todo : nat) (i : Z) (data : table) (p : process L) :
  map categories (result (run L (loop (exp L) todo i data) p))
  = map categories data ++ fst (py_rounds L todo (py_rng p))
  /\ py_rng (final (run L (loop (exp L) todo i data) p))
     = snd (py_rounds L todo (py_rng p)).
Proof.
  revert i data p. induction todo as [| todo IH]; intros i data p.
  - simpl. rewrite List.app_nil_r. split; reflexivity.
  - cbn [loop py_rounds]. rewrite run_bind_result, run_bind_final.
    fold (call_project L i p).
    destruct (py_view_of_round i p) as [Hrow Hstate].
    destruct (IH (i + 1)%Z (data ++ [result (call_project L i p)])
                 (final (call_project L i p))) as [IHrows IHstate].
    rewrite IHrows, IHstate, Hstate, map_app. cbn [map fst snd].
    rewrite Hrow, <- List.app_assoc. split; reflexivity.
Qed.

End PythonStream.

(** X6.  The project types and industries of a table, and the state its
    generation leaves [random] in, depend on the state of [random] at the
    start only: two calls that start with the same state of [random], and
    any states of NumPy, give the same labels row by row and leave [random]
    in the same state. *)
Theorem labels_ignore_numpy (L : Lib) (n : Z) (p q : process L) :
  py_rng p = py_rng q ->
  map categories (result (call_generate L n p))
  = map categories (result (call_generate L n q))
  /\ py_rng (final (call_generate L n p))
     = py_rng (final (call_generate L n q)).
Proof.
  intro Hpy. unfold call_generate, generate_project_data.
  destruct (py_view_of_loop L (Z.to_nat n) 0 [] p) as [Hp Hp'].
  destruct (py_view_of_loop L (Z.to_nat n) 0 [] q) as [Hq Hq'].
  rewrite Hp, Hq, Hp', Hq', Hpy. split; reflexivity.
Qed.

(** ** One call or two *)

Section Splitting.

Variable L : Lib.

(** The rows a loop starts with are kept, and what it appends, the calls it
    makes and the process it leaves do not depend on them. *)
Lemma loop_data (todo : nat) (i : Z) (data : table) (p : process L) :
  result (run L (loop (exp L) todo i data) p)
  = data ++ result (run L (loop (exp L) todo i []) p)
  /\ final (run L (loop (exp L) todo i data) p)
     = final (run L (loop (exp L) todo i []) p)
  /\ events (run L (loop (exp L) todo i data) p)
     = events (run L (loop (exp L) todo i []) p).
Proof.
  revert i data p. induction todo as [| todo IH]; intros i data p.
  - simpl. rewrite List.app_nil_r. repeat split.
  - cbn [loop].
    rewrite !run_bind_result, !run_bind_final, !run_bind_events.
    set (row := result (run L (project (exp L) i) p)).
    set (p' := final (run L (project (exp L) i) p)).
    destruct (IH (i + 1)%Z (data ++ [row]) p') as (E1 & E2 & E3).
    destruct (IH (i + 1)%Z ([] ++ [row]) p') as (F1 & F2 & F3).
    rewrite E1, E2, E3, F1, F2, F3, <- List.app_assoc.
    repeat split.
Qed.

(** The index of a round shows in the id of its row only. *)
Lemma project_index (i j : Z) (p : process L) :
  data_fields (result (call_project L i p))
  = data_fields (result (call_project L j p))
  /\ final (call_project L i p) = final (call_project L j p)
  /\ events (call_project L i p) = events (call_project L j p).
Proof.
  unfold call_project, project, choice, outcomes.
  cbn [run bind draw handle on_py on_np fst snd result final events
       py_rng np_rng List.length project_types industries].
  destruct (Py.flt _ _);
    cbn [Py.truthy Z.eqb negb run bind draw handle on_py on_np fst snd
         result final events py_rng np_rng];
    repeat split.
Qed.

Lemma loop_index (todo : nat) (i j : Z) (p : process L) :
  map data_fields (result (run L (loop (exp L) todo i []) p))
  = map data_fields (result (run L (loop (exp L) todo j []) p))
  /\ final (run L (loop (exp L) todo i []) p)
     = final (run L (loop (exp L) todo j []) p)
  /\ events (run L (loop (exp L) todo i []) p)
     = events (run L (loop (exp L) todo j []) p).
Proof.
  revert i j p. induction todo as [| todo IH]; intros i j p.
  - repeat split.
  - cbn [loop].
    rewrite !run_bind_result, !run_bind_final, !run_bind_events.
    fold (call_project L i p). fold (call_project L j p).
    destruct (project_index i j p) as (Hrow & Hfinal & Hevents).
    rewrite Hevents, Hfinal.
    set (p' := final (call_project L j p)).
    destruct (loop_data todo (i + 1)%Z ([] ++ [result (call_project L i p)]) p')
      as (E1 & E2 & E3).
    destruct (loop_data todo (j + 1)%Z ([] ++ [result (call_project L j p)]) p')
      as (F1 & F2 & F3).
    destruct (IH (i + 1)%Z (j + 1)%Z p') as (G1 & G2 & G3).
    rewrite E1, E2, E3, F1, F2, F3, G2, G3, !map_app, G1.
    cbn [map app]. rewrite Hrow. repeat split.
Qed.

(** A loop of [a + b] rounds is a loop of [a] rounds and then one of [b]
    rounds on the rows, from the index and in the process the first one
    leaves. *)
Lemma loop_split (a b : nat) (i : Z) (data : table) (p : process L) :
  let first := run L (loop (exp L) a i data) p in
  let second :=
    run L (loop (exp L) b (i + Z.of_nat a)%Z (result first)) (final first) in
  result (run L (loop (exp L) (a + b) i data) p) = result second
  /\ final (run L (loop (exp L) (a + b) i data) p) = final second
  /\ events (run L (loop (exp L) (a + b) i data) p)
     = events first ++ events second.
Proof.
  revert i data p. induction a as [| a IH]; intros i data p.
  - cbn [loop Nat.add run result final events app Z.of_nat].
    rewrite Z.add_0_r. repeat split.
  - cbn [loop Nat.add].
    rewrite !run_bind_result, !run_bind_final, !run_bind_events.
    set (row := result (run L (project (exp L) i) p)).
    set (p' := final (run L (project (exp L) i) p)).
    destruct (IH (i + 1)%Z (data ++ [row]) p') as (E1 & E2 & E3).
    cbn zeta in E1, E2, E3. cbn zeta.
    rewrite E1, E2, E3, <- List.app_assoc.
    replace (i + 1 + Z.of_nat a)%Z with (i + Z.of_nat (S a))%Z by lia.
    repeat split.
Qed.

End Splitting.

Lemma firstn_exact {A : Type} (l l' : list A) (k : nat) :
  List.length l = k -> firstn k (l ++ l') = l.
Proof.
  intros <-.
  rewrite firstn_app, Nat.sub_diag, firstn_all, firstn_O.
  apply List.app_nil_r.
Qed.

Lemma skipn_exact {A : Type} (l l' : list A) (k : nat) :
  List.length l = k -> skipn k (l ++ l') = l'.
Proof.
  intros <-.
  rewrite skipn_app, Nat.sub_diag, skipn_all, skipn_O. reflexivity.
Qed.

(** X7.  Generating [n + m] rows in one call is generating [n] rows and
    then [m] rows in the same process, the ids apart: the table begins with
    the rows of the first call, ids included; its other rows are those of
    the second call but for their ids, which go on counting; the calls made
    are those of the two calls one after the other, and the process is left
    as the second call leaves it. *)
Theorem one_call_or_two (L : Lib) (n m : Z) (p : process L) :
  (0 <= n)%Z -> (0 <= m)%Z ->
  let whole := call_generate L (n + m) p in
  let first := call_generate L n p in
  let second := call_generate L m (final first) in
  firstn (Z.to_nat n) (result whole) = result first
  /\ map data_fields (skipn (Z.to_nat n) (result whole))
     = map data_fields (result second)
  /\ project_ids (skipn (Z.to_nat n) (result whole))
     = map id_value (count_from (Z.to_N n + 1) (Z.to_nat m))
  /\ events whole = events first ++ events second
  /\ final whole = final second.
Proof.
  intros Hn Hm whole first second.
  unfold whole, first, second, call_generate, generate_project_data.
  replace (Z.to_nat (n + m)) with (Z.to_nat n + Z.to_nat m)%nat by lia.
  destruct (loop_split L (Z.to_nat n) (Z.to_nat m) 0 [] p) as (E1 & E2 & E3).
  cbn zeta in E1, E2, E3. rewrite E1, E2, E3.
  set (r1 := run L (loop (exp L) (Z.to_nat n) 0 []) p) in *.
  destruct (loop_data L (Z.to_nat m) (0 + Z.of_nat (Z.to_nat n))%Z
              (result r1) (final r1)) as (D1 & D2 & D3).
  destruct (loop_index L (Z.to_nat m) (0 + Z.of_nat (Z.to_nat n))%Z 0
              (final r1)) as (I1 & I2 & I3).
  assert (Hlen : List.length (result r1) = Z.to_nat n).
  { destruct (every_round_intro L any_answer (fun _ _ _ => True) n p
                (within_any L)
                (fun j => always_weaken any_answer _ _ _
                            (fun _ _ _ => I) (round_keys (exp L) j)))
      as [H _].
    exact H. }
  rewrite D1, D2, D3.
  rewrite (firstn_exact _ _ _ Hlen), (skipn_exact _ _ _ Hlen).
  split; [reflexivity|].
  split; [exact I1|].
  split.
  { destruct (always_run L any_answer
                (loop (exp L) (Z.to_nat m) (0 + Z.of_nat (Z.to_nat n)) []) _
                (final r1) (within_any L)
                (loop_rounds (exp L) any_answer _ (round_id (exp L))
                   (Z.to_nat m) (0 + Z.of_nat (Z.to_nat n))%Z []))
      as (rows & Erows & Hrows & Hrounds).
    cbn [app] in Erows. rewrite Erows.
    rewrite (rounds_ids _ _ _ Hrounds) by lia.
    rewrite Hrows. do 2 f_equal. lia. }
  split; [rewrite I3; reflexivity | exact I2].
Qed.

(** ** The success rate of the script *)








(** ** The ids as strings *)

Lemma ascii_lt_trans (a b c : ascii) :
  Ascii.compare a b = Lt -> Ascii.compare b c = Lt ->
  Ascii.compare a c = Lt.
Proof.
  unfold Ascii.compare. rewrite !N.compare_lt_iff. apply N.lt_trans.
Qed.

(** The order of strings, character by character, is transitive. *)
Lemma string_lt_trans (s1 s2 s3 : string) :
  String.compare s1 s2 = Lt -> String.compare s2 s3 = Lt ->
  String.compare s1 s3 = Lt.
Proof.
  revert s2 s3. induction s1 as [| a s1 IH]; intros [| b s2] [| c s3];
    simpl; try discriminate; try reflexivity.
  destruct (Ascii.compare a b) eqn:Eab; try discriminate;
    destruct (Ascii.compare b c) eqn:Ebc; try discriminate; intros H1 H2.
  - apply Ascii.compare_eq_iff in Eab, Ebc. subst.
    rewrite (proj2 (N.compare_eq_iff _ _) eq_refl : Ascii.compare c c = Eq).
    eapply IH; eassumption.
  - apply Ascii.compare_eq_iff in Eab. subst. rewrite Ebc. reflexivity.
  - apply Ascii.compare_eq_iff in Ebc. subst. rewrite Eab. reflexivity.
  - rewrite (ascii_lt_trans _ _ _ Eab Ebc). reflexivity.
Qed.

Lemma In_count_from (len : nat) (first x : N) :
  (first <= x < first + N.of_nat len)%N -> In x (count_from first len).
Proof.
  revert first. induction len as [| len IH]; intros first H; [lia|].
  simpl. destruct (N.eq_dec first x) as [E | E]; [left; exact E|].
  right. apply IH. lia.
Qed.

(** Each id of four digits is below the next one. *)
Lemma next_id_is_above :
  forallb (fun k => String.ltb (padded_id k) (padded_id (N.succ k)))
          (count_from 1 (N.to_nat 9998)) = true.
Proof. vm_compute. reflexivity. Qed.

Lemma ids_of_four_digits_ordered (j k : N) :
  (1 <= j < k)%N -> (k <= 9999)%N ->
  String.compare (padded_id j) (padded_id k) = Lt.
Proof.
  intros Hjk Hk.
  assert (Hstep : forall i, (1 <= i <= 9998)%N ->
            String.compare (padded_id i) (padded_id (N.succ i)) = Lt).
  { intros i Hi.
    pose proof (proj1 (forallb_forall _ _) next_id_is_above i
                  (In_count_from (N.to_nat 9998) 1 i ltac:(lia))) as H.
    unfold String.ltb in H.
    destruct (String.compare (padded_id i) (padded_id (N.succ i)));
      [discriminate | reflexivity | discriminate]. }
  replace k with (N.succ j + N.of_nat (N.to_nat (k - N.succ j)))%N by lia.
  assert (Hgap : (N.succ j + N.of_nat (N.to_nat (k - N.succ j)) <= 9999)%N)
    by lia.
  induction (N.to_nat (k - N.succ j)) as [| gap IH].
  - rewrite N.add_0_r. apply Hstep. lia.
  - eapply string_lt_trans; [apply IH; lia|].
    replace (N.succ j + N.of_nat (S gap))%N
      with (N.succ (N.succ j + N.of_nat gap)) by lia.
    apply Hstep. lia.
Qed.

Lemma generated_ids (L : Lib) (n : Z) (p : process L) :
  project_ids (result (call_generate L n p))
  = map id_value (count_from 1 (Z.to_nat n)).
Proof.
  destruct (every_round_intro L any_answer
              (fun j row _ =>
                 get "project_id" row = Some (VStr (project_id j)))
              n p (within_any L) (round_id (exp L))) as [Hlen Hrounds].
  rewrite (rounds_ids _ _ _ Hrounds) by lia.
  rewrite Hlen. reflexivity.
Qed.

(** X9.  While a table has at most 9999 rows its ids are in strictly
    increasing order as strings, compared character by character: every
    id is below the ids of the rows after it.  From 10000 rows on they are
    not: the id of the row 10000, [PRJ_10000], is below the id of the row
    before it, [PRJ_9999]. *)
Theorem ids_sort_up_to_four_digits (L : Lib) (n : Z) (p : process L) :
  let ids := project_ids (result (call_generate L n p)) in
  ((n <= 9999)%Z ->
   forall (i j : nat) (a b : string),
     (i < j)%nat ->
     nth_error ids i = Some (Some (VStr a)) ->
     nth_error ids j = Some (Some (VStr b)) ->
     String.ltb a b = true)
  /\ ((10000 <= n)%Z ->
      nth_error ids (Z.to_nat 9998) = Some (Some (VStr "PRJ_9999"))
      /\ nth_error ids (Z.to_nat 9999) = Some (Some (VStr "PRJ_10000"))
      /\ String.ltb "PRJ_10000" "PRJ_9999" = true).
Proof.
  intro ids. unfold ids. rewrite generated_ids. split.
  - intros Hn i j a b Hij Ha Hb.
    apply nth_error_ids_inv in Ha. destruct Ha as [Hi ->].
    apply nth_error_ids_inv in Hb. destruct Hb as [Hj ->].
    unfold String.ltb.
    rewrite ids_of_four_digits_ordered; [reflexivity | lia | lia].
  - intro Hn.
    split; [rewrite nth_error_ids by lia; vm_compute; reflexivity|].
    split; [rewrite nth_error_ids by lia; vm_compute; reflexivity|].
    reflexivity.
Qed.

(** ** Ids across calls *)

Lemma count_from_app (a b : nat) (first : N) :
  count_from first (a + b)
  = count_from first a ++ count_from (first + N.of_nat a) b.
Proof.
  revert first. induction a as [| a IH]; intro first.
  - simpl. rewrite N.add_0_r. reflexivity.
  - cbn [count_from Nat.add app]. rewrite IH. do 3 f_equal. lia.
Qed.

(** X10.  The ids of a table depend on the number of rows only: every call
    numbers its rows from [PRJ_0001] again.  So the ids of a shorter table
    begin those of a longer one, and the two tables of two calls in one
    process, when not empty, put together, carry every id twice. *)
Theorem ids_restart_with_every_call (L : Lib) (n m : Z)
    (p q : process L) :
  (0 <= n <= m)%Z ->
  let ids_n := project_ids (result (call_generate L n p)) in
  let ids_m := project_ids (result (call_generate L m q)) in
  ids_n = firstn (Z.to_nat n) ids_m
  /\ (n = m -> ids_n = ids_m)
  /\ ((1 <= n)%Z ->
      ~ NoDup (project_ids
                 (result (call_generate L n p)
                  ++ result (call_generate L n q)))).
Proof.
  intros Hnm ids_n ids_m. unfold ids_n, ids_m.
  rewrite !generated_ids.
  split.
  { replace (Z.to_nat m) with (Z.to_nat n + (Z.to_nat m - Z.to_nat n))%nat
      by lia.
    rewrite count_from_app, map_app.
    symmetry. apply firstn_exact.
    rewrite length_map. apply count_from_length. }
  split; [intros ->; reflexivity|].
  intros Hn Hnodup.
  unfold project_ids in Hnodup. rewrite map_app in Hnodup.
  fold (project_ids (result (call_generate L n p))) in Hnodup.
  fold (project_ids (result (call_generate L n q))) in Hnodup.
  rewrite !generated_ids in Hnodup.
  destruct (Z.to_nat n) as [| k] eqn:E; [lia|].
  cbn [count_from map app] in Hnodup.
  apply NoDup_cons_iff in Hnodup. destruct Hnodup as [Hnotin _].
  apply Hnotin. apply in_or_app. right. left. reflexivity.
Qed.

(** ** The centre of the logistic transform *)

(** X11.  With an exponential that is positive, strictly increasing and 1
    at 0, the success probability of line 70 is centred at the risk score
    5: it is one half there, above one half for a lower risk score and
    below one half for a higher one. *)
Theorem success_probability_centred_at_five (e : Q -> Q) (risk : Q) :
  exp_positive e ->
  exp_increasing e ->
  exp_one_at_zero e ->
  (risk == 5 -> success_probability e risk == 1 # 2)
  /\ (risk < 5 -> 1 # 2 < success_probability e risk)
  /\ (5 < risk -> success_probability e risk < 1 # 2).
Proof.
  intros Hpos Hinc Hone.
  assert (Hfive : success_probability e 5 == 1 # 2).
  { unfold success_probability. rewrite (Hone ((5 - 5) / 2)); reflexivity. }
  split; [|split].
  - intro E. unfold success_probability.
    rewrite (Hone ((risk - 5) / 2)); [reflexivity|].
    rewrite E. reflexivity.
  - intro H. rewrite <- Hfive.
    apply success_probability_decreasing; assumption.
  - intro H. rewrite <- Hfive.
    apply success_probability_decreasing; assumption.
Qed.

(** * The further properties on a run *)

Lemma tape_choice_in_range : choice_in_range Tape.example.
Proof.
  intros len s Hlen. simpl. unfold Tape.pop, Tape.position.
  destruct s as [| q s]; simpl; apply Nat.mod_upper_bound; lia.
Qed.

Lemma tamed_beta_in_unit : beta_in_unit Tamed.example.
Proof.
  intros a b s. simpl. unfold Tape.pop, Tape.clamp01.
  destruct s as [| q s]; simpl; apply fmax_fmin_between; lra.
Qed.

Lemma tamed_uniform_in_bounds : uniform_in_bounds Tamed.example.
Proof.
  intros low high s H. simpl. unfold Tape.pop, Tamed.clamp.
  destruct s as [| q s]; simpl; apply fmax_fmin_between; exact H.
Qed.

Lemma tamed_poisson_nonnegative : poisson_nonnegative Tamed.example.
Proof.
  intros lam s. simpl. unfold Tape.pop, Tamed.count.
  destruct s as [| q s]; cbn [fst]; [reflexivity || lia | apply Z.abs_nonneg].
Qed.

Lemma grow_one_at_zero : exp_one_at_zero Tape.grow.
Proof.
  intros x E. unfold Tape.grow.
  destruct (Py.flt x 0) eqn:F.
  - apply flt_true in F. rewrite E in F. discriminate F.
  - rewrite E. reflexivity.
Qed.

(** X1 on the second row of a run of two rounds. *)
Lemma generated_factors_in_ranges_witness :
  beta_in_unit Tamed.example
  /\ uniform_in_bounds Tamed.example
  /\ poisson_nonnegative Tamed.example
  /\ factors_in_ranges
       (nth 1 (result (call_generate Tamed.example 2 Tamed.seeded)) []).
Proof.
  split; [exact tamed_beta_in_unit|].
  split; [exact tamed_uniform_in_bounds|].
  split; [exact tamed_poisson_nonnegative|].
  apply (generated_factors_in_ranges Tamed.example 2 Tamed.seeded);
    [exact tamed_beta_in_unit | exact tamed_uniform_in_bounds
     | exact tamed_poisson_nonnegative
     | vm_compute; right; left; reflexivity].
Defined.

(** X2 on the first row of a run of two rounds. *)
Lemma generated_rows_labelled_witness :
  choice_in_range Tape.example
  /\ labelled (nth 0 (result (call_generate Tape.example 2 Tape.seeded)) []).
Proof.
  split; [exact tape_choice_in_range|].
  apply (generated_rows_labelled Tape.example 2 Tape.seeded);
    [exact tape_choice_in_range | vm_compute; left; reflexivity].
Defined.

(** X3 on the second row of a run of two rounds, whose budget was
    clamped. *)
Lemma generated_cells_rounded_witness :
  rounded_cells
    (nth 1 (result (call_generate Tape.example 2 Tape.seeded)) []).
Proof.
  apply (generated_cells_rounded Tape.example 2 Tape.seeded).
  vm_compute. right. left. reflexivity.
Defined.

(** X4 at the factors of the first row of the example: a clearer scope, 8
    for 7, raises the success probability. *)
Lemma factors_move_success_probability_witness :
  exp_positive Tape.grow
  /\ exp_increasing Tape.grow
  /\ success_probability Tape.grow (risk_score 7 6 5 4.2 8 3 2)
     < success_probability Tape.grow (risk_score 8 6 5 4.2 8 3 2).
Proof.
  split; [exact grow_positive|]. split; [exact grow_increasing|].
  destruct (factors_move_success_probability Tape.grow 7 6 5 4.2 8 3 2
              grow_positive grow_increasing) as (Hsc & _).
  apply Hsc. reflexivity.
Defined.

(** X6 on two processes with the same tape for [random], one of them with
    an empty tape for NumPy. *)
Lemma labels_ignore_numpy_witness :
  map categories (result (call_generate Tape.example 2 Tape.seeded))
  = map categories
      (result (call_generate Tape.example 2
                 (Build_process Tape.example (Tape.py_tape 42) []))).
Proof.
  apply (labels_ignore_numpy Tape.example 2 Tape.seeded
           (Build_process Tape.example (Tape.py_tape 42) [])).
  reflexivity.
Defined.

(** X7 on one call for two rows and two calls for one row each. *)
Lemma one_call_or_two_witness :
  (0 <= 1)%Z
  /\ firstn 1 (result (call_generate Tape.example 2 Tape.seeded))
     = result (call_generate Tape.example 1 Tape.seeded).
Proof.
  split; [lia|].
  destruct (one_call_or_two Tape.example 1 1 Tape.seeded) as (H & _);
    [lia | lia |].
  exact H.
Defined.


(** X9 on the two ids of a run of two rounds. *)
Lemma ids_sort_up_to_four_digits_witness :
  (2 <= 9999)%Z /\ String.ltb "PRJ_0001" "PRJ_0002" = true.
Proof.
  split; [lia|].
  destruct (ids_sort_up_to_four_digits Tape.example 2 Tape.seeded)
    as (H & _).
  apply (H ltac:(lia) 0%nat 1%nat); [lia | reflexivity | reflexivity].
Defined.

(** X10 on a call for one row and a call for two rows. *)
Lemma ids_restart_with_every_call_witness :
  (0 <= 1 <= 2)%Z
  /\ project_ids (result (call_generate Tape.example 1 Tape.seeded))
     = firstn 1
         (project_ids (result (call_generate Tape.example 2 Tape.seeded))).
Proof.
  split; [lia|].
  destruct (ids_restart_with_every_call Tape.example 1 2
              Tape.seeded Tape.seeded) as (H & _); [lia|].
  exact H.
Defined.

(** X11 at the risk score 3.17 of the first row of the example. *)
Lemma success_probability_centred_at_five_witness :
  exp_positive Tape.grow /\ exp_increasing Tape.grow
  /\ exp_one_at_zero Tape.grow
  /\ 1 # 2 < success_probability Tape.grow 3.17.
Proof.
  split; [exact grow_positive|]. split; [exact grow_increasing|].
  split; [exact grow_one_at_zero|].
  destruct (success_probability_centred_at_five Tape.grow 3.17
              grow_positive grow_increasing grow_one_at_zero) as (_ & H & _).
  apply H. reflexivity.
Defined.

(** * Two calls in one process, with the [random] module of CPython *)

(** The words, the uniform draw and the positions picked that CPython
    gives after [random.seed(42)]. *)
Lemma cpython_first_draws :
  (let (a, s1) := Mersenne.genrand_uint32 (Mersenne.seed 42) in
   let (b, s2) := Mersenne.genrand_uint32 s1 in
   let (c, _) := Mersenne.genrand_uint32 s2 in
   [a; b; c]) = [2746317213; 478163327; 107420369]%Z
  /\ fst (Mersenne.random (Mersenne.seed 42))
     == 5759444582531269 # 9007199254740992
  /\ option_map fst (cpython_rounds 10 (Mersenne.seed 42))
     = Some [(0, 0); (1, 1); (0, 4); (3, 0); (1, 1); (0, 4); (4, 3); (4, 2);
             (0, 1); (2, 2)]%nat.
Proof. vm_compute. repeat split. Qed.


Section CPython.

Variable L : Lib.



End CPython.















